(** * bakpy: the archive component and its configuration front end

    A shallow embedding of [archive.py] and [bak.py].  Python objects are
    records, exceptions are values of a sum type, and what the program
    reads from or writes to the outside world (the file system, the
    clock, the home directory) is threaded explicitly through a [World]
    value; what [main] prints is returned next to it.

    Conventions of the model:
    - a Python [str] is a [string]: a sequence of code points below 256;
    - a [bytes] value and the content of a file are a [list byte];
    - the file system is path resolution as Linux does it (names of at
      most 255 bytes, paths of less than 4096) over a finite map from
      canonical absolute paths to nodes, without symbolic links,
      permissions or special files; Python is CPython up to 3.12, whose
      [Path.is_dir] and [Path.is_file] raise the errors of [stat] they
      do not know as "not there";
    - a call that can raise returns a [result]; a call that also touches
      the world returns the new world next to it;
    - what [json.load] makes of the content of a file, the bytes that
      [tarfile] writes and the exceptions it meets while it reads the
      members are parameters of the functions that use them. *)

From Stdlib Require Import ZArith NArith Ascii String List Lia Bool.
From Stdlib.Strings Require Import Byte.
From Stdlib Require Import DecimalString.
From stdpp Require Import base option list gmap strings.
From Equations Require Import Equations.

Local Open Scope string_scope.
Local Open Scope list_scope.

(** ** Python strings *)

Module pystr.

(** [str.isspace] on one code point below 256: the characters with
    bidirectional type WS, B or S or with category Zs. *)
Definition isspace (c : ascii) : bool :=
  let n := N_of_ascii c in
  ((9 <=? n) && (n <=? 13) || (28 <=? n) && (n <=? 32)
   || (n =? 133) || (n =? 160))%N.

Fixpoint lstrip (s : string) : string :=
  match s with
  | EmptyString => EmptyString
  | String c s' => if isspace c then lstrip s' else s
  end.

Fixpoint rstrip (s : string) : string :=
  match s with
  | EmptyString => EmptyString
  | String c s' =>
      match rstrip s' with
      | EmptyString => if isspace c then EmptyString else String c EmptyString
      | r => String c r
      end
  end.

(** [s.lstrip(c)] for a single character [c]. *)
Fixpoint lstrip_char (c : ascii) (s : string) : string :=
  match s with
  | EmptyString => EmptyString
  | String d s' => if Ascii.eqb d c then lstrip_char c s' else s
  end.

(** [s.endswith(c)] for a single character [c]. *)
Fixpoint endswith_char (c : ascii) (s : string) : bool :=
  match s with
  | EmptyString => false
  | String d EmptyString => Ascii.eqb d c
  | String _ s' => endswith_char c s'
  end.

(** [s.strip()] *)
Definition strip (s : string) : string := rstrip (lstrip s).

(** Truth value of a string: [bool(s)], false exactly for the empty string. *)
Definition truthy (s : string) : bool :=
  match s with EmptyString => false | _ => true end.

(** [s.split(sep)] for a one-character separator. *)
Fixpoint split (sep : ascii) (s : string) : list string :=
  match s with
  | EmptyString => [EmptyString]
  | String c s' =>
      if Ascii.eqb c sep then EmptyString :: split sep s'
      else match split sep s' with
           | [] => [String c EmptyString]
           | w :: ws => String c w :: ws
           end
  end.

(** [sep.join(parts)] *)
Fixpoint join (sep : string) (parts : list string) : string :=
  match parts with
  | [] => EmptyString
  | [p] => p
  | p :: ps => p +:+ sep +:+ join sep ps
  end.

Definition startswith (p s : string) : bool := String.prefix p s.

Fixpoint contains (c : ascii) (s : string) : bool :=
  match s with
  | EmptyString => false
  | String d s' => Ascii.eqb c d || contains c s'
  end.

Definition hexdigit (n : N) : ascii :=
  ascii_of_N (if (n <? 10)%N then 48 + n else 87 + n).

(** Two lowercase hexadecimal digits of a number below 256. *)
Definition hex2 (n : N) : string :=
  String (hexdigit (n / 16)) (String (hexdigit (n mod 16)) EmptyString).

Definition digit (n : N) : ascii := ascii_of_N (48 + n mod 10).

(** [str.isprintable] on one code point below 256. *)
Definition isprintable (c : ascii) : bool :=
  let n := N_of_ascii c in
  ((32 <=? n) && (n <? 127) || (161 <=? n) && negb (n =? 173))%N.

Definition dquote : ascii := ascii_of_N 34.

Definition repr_char (quote : ascii) (c : ascii) : string :=
  let n := N_of_ascii c in
  if Ascii.eqb c quote || Ascii.eqb c "\" then String "\" (String c EmptyString)
  else if (n =? 9)%N then "\t"
  else if (n =? 10)%N then "\n"
  else if (n =? 13)%N then "\r"
  else if isprintable c then String c EmptyString
  else "\x" +:+ hex2 n.

Fixpoint repr_body (quote : ascii) (s : string) : string :=
  match s with
  | EmptyString => EmptyString
  | String c s' => repr_char quote c +:+ repr_body quote s'
  end.

(** [repr(s)]: single quotes unless the string has a single quote and
    no double quote. *)
Definition repr (s : string) : string :=
  let quote : ascii :=
    if contains "'" s && negb (contains dquote s) then dquote else "'"%char in
  String quote (repr_body quote s) +:+ String quote EmptyString.

End pystr.

(** ** Exceptions *)

Inductive exc_class :=
  | BaseException | Exception | TypeError | ValueError | JSONDecodeError
  | OSError | FileNotFoundError | IsADirectoryError | NotADirectoryError
  | PermissionError
  | ConfigError        (* bak.py: class ConfigError(OSError) *)
  | ArchiveException.  (* archive.py: class ArchiveException(Exception) *)

Global Instance exc_class_eq_dec : EqDecision exc_class.
Proof. solve_decision. Defined.

(** The method resolution order of each class, itself first. *)
Definition mro (c : exc_class) : list exc_class :=
  match c with
  | BaseException => [BaseException]
  | Exception => [Exception; BaseException]
  | TypeError => [TypeError; Exception; BaseException]
  | ValueError => [ValueError; Exception; BaseException]
  | JSONDecodeError => [JSONDecodeError; ValueError; Exception; BaseException]
  | OSError => [OSError; Exception; BaseException]
  | FileNotFoundError => [FileNotFoundError; OSError; Exception; BaseException]
  | IsADirectoryError => [IsADirectoryError; OSError; Exception; BaseException]
  | NotADirectoryError => [NotADirectoryError; OSError; Exception; BaseException]
  | PermissionError => [PermissionError; OSError; Exception; BaseException]
  | ConfigError => [ConfigError; OSError; Exception; BaseException]
  | ArchiveException => [ArchiveException; Exception; BaseException]
  end.

Definition issubclass (c d : exc_class) : bool := bool_decide (d ∈ mro c).

(** A raised exception: its class and [str(exc)]. *)
Record exn := Raise { exc_type : exc_class; exc_str : string }.

Definition isinstance (e : exn) (d : exc_class) : bool :=
  issubclass (exc_type e) d.

Inductive result (A : Type) :=
  | Ok (a : A)
  | Err (e : exn).
Arguments Ok {A} a.
Arguments Err {A} e.

Definition is_ok {A} (r : result A) : bool :=
  match r with Ok _ => true | Err _ => false end.

(** ** The clock *)

Record datetime := {
  year : N; month : N; day : N; hour : N; minute : N; second : N
}.

Module pytime.
Import pystr.

Definition pad2 (n : N) : string :=
  String (digit (n / 10)) (String (digit n) EmptyString).

Definition pad4 (n : N) : string :=
  String (digit (n / 1000)) (String (digit (n / 100)) (pad2 n)).

(** [d.strftime("%Y%m%d-%H%M%S")], for a year of four digits. *)
Definition strftime (d : datetime) : string :=
  pad4 (year d) +:+ pad2 (month d) +:+ pad2 (day d) +:+ "-"
    +:+ pad2 (hour d) +:+ pad2 (minute d) +:+ pad2 (second d).
End pytime.


(** ** The file system *)

Inductive node :=
  | File (data : list byte)
  | Dir.

(** The part of the outside world the program reads or writes: the file
    system (canonical absolute path, as its list of components, to node;
    the root directory [[]] always exists), the working directory of the
    process, the home directory of the user and the reading of the clock. *)
Record World := {
  cwd : list string;
  fs : gmap (list string) node;
  home : string;
  now : datetime
}.

Module os.

Inductive errno := ENOENT | ENOTDIR | EISDIR | ENAMETOOLONG.

(** The longest name of a file and the size of the buffer a path must
    fit in with its final zero, in bytes. *)
Definition NAME_MAX : N := 255.
Definition PATH_MAX : N := 4096.

(** The bytes a string takes when Python hands it to the system: the
    UTF-8 encoding takes one byte for a code point below 128 and two for
    the others below 256. *)
Definition char_bytes (c : ascii) : N :=
  if (N_of_ascii c <? 128)%N then 1%N else 2%N.

Fixpoint fsencode_len (s : string) : N :=
  match s with
  | EmptyString => 0%N
  | String c s' => (char_bytes c + fsencode_len s')%N
  end.

(** A string with a zero code point cannot be handed to the system:
    Python raises [ValueError] before any call. *)
Definition has_nul (s : string) : bool := pystr.contains Ascii.zero s.

Definition embedded_null : exn := Raise ValueError "embedded null byte".

Definition node_at (m : gmap (list string) node) (p : list string) : option node :=
  match p with
  | [] => Some Dir
  | _ => m !! p
  end.

(** Resolve one component [c] from the directory [cur]. *)
Definition enter (m : gmap (list string) node) (cur : list string) (c : string)
  : errno + list string :=
  match node_at m cur with
  | None => inl ENOENT
  | Some (File _) => inl ENOTDIR
  | Some Dir =>
      if String.eqb c EmptyString || String.eqb c "." then inr cur
      else if String.eqb c ".." then inr (removelast cur)
      else if (NAME_MAX <? fsencode_len c)%N then inl ENAMETOOLONG
      else match node_at m (cur ++ [c]) with
           | None => inl ENOENT
           | Some _ => inr (cur ++ [c])
           end
  end.

Fixpoint walk (m : gmap (list string) node) (cur : list string)
  (comps : list string) : errno + list string :=
  match comps with
  | [] => inr cur
  | c :: cs =>
      match enter m cur c with
      | inl e => inl e
      | inr cur' => walk m cur' cs
      end
  end.

Definition start (w : World) (path : string) : list string :=
  if pystr.startswith "/" path then [] else cwd w.

(** Where the components lead from [cur], and what is there. *)
Definition resolve (m : gmap (list string) node) (cur : list string)
  (comps : list string) : errno + (list string * node) :=
  match walk m cur comps with
  | inl e => inl e
  | inr p =>
      match node_at m p with
      | None => inl ENOENT
      | Some n => inr (p, n)
      end
  end.

(** The system call [stat] on a path without zero byte: the canonical
    path and the node it names. *)
Definition stat (w : World) (path : string) : errno + (list string * node) :=
  if (PATH_MAX <=? fsencode_len path)%N then inl ENAMETOOLONG
  else
    match path with
    | EmptyString => inl ENOENT
    | _ => resolve (fs w) (start w path) (pystr.split "/" path)
    end.

Definition strerror (e : errno) : string :=
  match e with
  | ENOENT => "[Errno 2] No such file or directory"
  | ENOTDIR => "[Errno 20] Not a directory"
  | EISDIR => "[Errno 21] Is a directory"
  | ENAMETOOLONG => "[Errno 36] File name too long"
  end.

Definition error_class (e : errno) : exc_class :=
  match e with
  | ENOENT => FileNotFoundError
  | ENOTDIR => NotADirectoryError
  | EISDIR => IsADirectoryError
  | ENAMETOOLONG => OSError
  end.

(** The errors [pathlib] takes for "not there" ([_ignore_error]; of its
    four error numbers these two can occur here). *)
Definition ignored (e : errno) : bool :=
  match e with
  | ENOENT | ENOTDIR => true
  | _ => false
  end.

(** The [OSError] that a failed system call on [filename] raises. *)
Definition error (e : errno) (filename : string) : exn :=
  Raise (error_class e) (strerror e +:+ ": " +:+ pystr.repr filename).

Fixpoint trim_end (comps : list string) : list string :=
  match comps with
  | [] => []
  | c :: cs =>
      match trim_end cs with
      | [] => if String.eqb c EmptyString then [] else [c]
      | r => c :: r
      end
  end.

(** Where [open(path, O_WRONLY | O_CREAT | O_TRUNC)] puts the file, as
    Linux resolves it: the directories before the last component are
    resolved; a path that names a directory (also by a trailing slash)
    is refused, and so is a new name that is too long. *)
Definition creat (w : World) (path : string) : errno + list string :=
  if (PATH_MAX <=? fsencode_len path)%N then inl ENAMETOOLONG
  else
  match path with
  | EmptyString => inl ENOENT
  | _ =>
      let comps := pystr.split "/" path in
      let named := trim_end comps in
      match named with
      | [] => inl EISDIR
      | _ =>
          match walk (fs w) (start w path) (removelast named) with
          | inl e => inl e
          | inr d =>
              match node_at (fs w) d with
              | None => inl ENOENT
              | Some (File _) => inl ENOTDIR
              | Some Dir =>
                  let c := List.last named EmptyString in
                  if String.eqb c "." || String.eqb c ".." then inl EISDIR
                  else if (length named <? length comps)%nat then inl EISDIR
                  else if (NAME_MAX <? fsencode_len c)%N then inl ENAMETOOLONG
                  else match node_at (fs w) (d ++ [c]) with
                       | Some Dir => inl EISDIR
                       | _ => inr (d ++ [c])
                       end
              end
          end
      end
  end.

Definition put (w : World) (p : list string) (data : list byte) : World :=
  {| cwd := cwd w; fs := <[p := File data]> (fs w); home := home w; now := now w |}.

End os.

(** ** posixpath *)

Module posixpath.

(** [os.getcwd()] *)
Definition getcwd (w : World) : string := "/" +:+ pystr.join "/" (cwd w).

(** [os.path.join(a, b)] *)
Definition join (a b : string) : string :=
  if pystr.startswith "/" b then b
  else if negb (pystr.truthy a) || pystr.endswith_char "/" a then a +:+ b
  else a +:+ "/" +:+ b.

(** The loop of [normpath]; [new_comps] is kept last component first. *)
Fixpoint collapse (initial_slashes : bool) (new_comps comps : list string)
  : list string :=
  match comps with
  | [] => rev new_comps
  | comp :: rest =>
      if String.eqb comp EmptyString || String.eqb comp "." then
        collapse initial_slashes new_comps rest
      else if negb (String.eqb comp "..")
              || (negb initial_slashes
                  && match new_comps with [] => true | _ => false end)
              || match new_comps with
                 | last :: _ => String.eqb last ".."
                 | [] => false
                 end
      then collapse initial_slashes (comp :: new_comps) rest
      else collapse initial_slashes (List.tl new_comps) rest
  end.

(** [os.path.normpath(path)] *)
Definition normpath (path : string) : string :=
  match path with
  | EmptyString => "."
  | _ =>
      let slashes :=
        if pystr.startswith "//" path && negb (pystr.startswith "///" path)
        then "//"
        else if pystr.startswith "/" path then "/" else EmptyString in
      let comps :=
        collapse (pystr.truthy slashes) [] (pystr.split "/" path) in
      match slashes +:+ pystr.join "/" comps with
      | EmptyString => "."
      | norm => norm
      end
  end.

(** [os.path.abspath(path)] *)
Definition abspath (w : World) (path : string) : string :=
  normpath (if pystr.startswith "/" path then path else join (getcwd w) path).

End posixpath.

(** ** Built-in [open] *)

Module builtins.

(** [open(name, "rb")] followed by reading the whole file. *)
Definition open_read (w : World) (name : string) : result (list byte) :=
  if os.has_nul name then Err os.embedded_null
  else
    match os.stat w name with
    | inl e => Err (os.error e name)
    | inr (_, Dir) => Err (os.error os.EISDIR name)
    | inr (_, File data) => Ok data
    end.

(** [open(name, "w")] or ["wb"]: the file is created, or emptied when it
    exists; the handle is the canonical path of the file. *)
Definition open_write (w : World) (name : string) : result (list string * World) :=
  if os.has_nul name then Err os.embedded_null
  else
    match os.creat w name with
    | inl e => Err (os.error e name)
    | inr p => Ok (p, os.put w p [])
    end.

End builtins.

(** ** pathlib *)

Module pathlib.

Record PurePath := { anchor : string; parts : list string }.

Definition is_part (x : string) : bool :=
  negb (String.eqb x EmptyString) && negb (String.eqb x ".").

(** [Path(s)] for a string: the root is kept ("//" only for exactly two
    leading slashes), empty and "." components are dropped. *)
Definition parse (s : string) : PurePath :=
  {| anchor :=
       if pystr.startswith "//" s && negb (pystr.startswith "///" s) then "//"
       else if pystr.startswith "/" s then "/" else EmptyString;
     parts := List.filter is_part (pystr.split "/" s) |}.

(** What the program passes where a path is expected: a string or a
    path object. *)
Inductive pathlike :=
  | PStr (s : string)
  | PPath (p : PurePath).

(** [Path(x)] *)
Definition Path (x : pathlike) : PurePath :=
  match x with
  | PStr s => parse s
  | PPath p => p
  end.

(** [str(p)] *)
Definition to_str (p : PurePath) : string :=
  match anchor p, parts p with
  | EmptyString, [] => "."
  | a, ps => a +:+ pystr.join "/" ps
  end.

(** [p / key] for a string [key] *)
Definition truediv (p : PurePath) (key : string) : PurePath :=
  let q := parse key in
  if pystr.truthy (anchor q) then q
  else {| anchor := anchor p; parts := parts p ++ parts q |}.

(** [p.stat()] inside the [try] of [is_dir] and [is_file]: the node, or
    [None] where the two answer [False] (the [ValueError] of a zero byte
    and the errors that mean "not there"), or the [OSError] they raise
    again. *)
Definition stat_or_false (w : World) (p : PurePath) : result (option node) :=
  let name := to_str p in
  if os.has_nul name then Ok None
  else
    match os.stat w name with
    | inr (_, n) => Ok (Some n)
    | inl e => if os.ignored e then Ok None else Err (os.error e name)
    end.

(** [p.is_dir()] *)
Definition is_dir (w : World) (p : PurePath) : result bool :=
  match stat_or_false w p with
  | Err e => Err e
  | Ok (Some Dir) => Ok true
  | Ok _ => Ok false
  end.

(** [p.is_file()] *)
Definition is_file (w : World) (p : PurePath) : result bool :=
  match stat_or_false w p with
  | Err e => Err e
  | Ok (Some (File _)) => Ok true
  | Ok _ => Ok false
  end.

End pathlib.

(** ** hashlib.md5

    The MD5 accumulator as RFC 1321 implementations keep it: the four
    chaining words, the bytes received since the last complete 64-byte
    block, and the number of bytes received so far.  Words are integers
    in [0, 2^32) with the wrap-around written out. *)

Module hashlib.

Local Open Scope Z_scope.

Definition wrap (x : Z) : Z := x mod 2 ^ 32.

Definition add32 (x y : Z) : Z := wrap (x + y).

Definition not32 (x : Z) : Z := Z.lxor x 0xffffffff.

Definition rotl32 (x : Z) (c : Z) : Z :=
  Z.lor (wrap (Z.shiftl x c)) (Z.shiftr x (32 - c)).

Definition K : list Z :=
  [ 0xd76aa478; 0xe8c7b756; 0x242070db; 0xc1bdceee;
    0xf57c0faf; 0x4787c62a; 0xa8304613; 0xfd469501;
    0x698098d8; 0x8b44f7af; 0xffff5bb1; 0x895cd7be;
    0x6b901122; 0xfd987193; 0xa679438e; 0x49b40821;
    0xf61e2562; 0xc040b340; 0x265e5a51; 0xe9b6c7aa;
    0xd62f105d; 0x02441453; 0xd8a1e681; 0xe7d3fbc8;
    0x21e1cde6; 0xc33707d6; 0xf4d50d87; 0x455a14ed;
    0xa9e3e905; 0xfcefa3f8; 0x676f02d9; 0x8d2a4c8a;
    0xfffa3942; 0x8771f681; 0x6d9d6122; 0xfde5380c;
    0xa4beea44; 0x4bdecfa9; 0xf6bb4b60; 0xbebfbc70;
    0x289b7ec6; 0xeaa127fa; 0xd4ef3085; 0x04881d05;
    0xd9d4d039; 0xe6db99e5; 0x1fa27cf8; 0xc4ac5665;
    0xf4292244; 0x432aff97; 0xab9423a7; 0xfc93a039;
    0x655b59c3; 0x8f0ccc92; 0xffeff47d; 0x85845dd1;
    0x6fa87e4f; 0xfe2ce6e0; 0xa3014314; 0x4e0811a1;
    0xf7537e82; 0xbd3af235; 0x2ad7d2bb; 0xeb86d391 ].

Definition shifts : list Z :=
  [ 7; 12; 17; 22; 7; 12; 17; 22; 7; 12; 17; 22; 7; 12; 17; 22;
    5; 9; 14; 20; 5; 9; 14; 20; 5; 9; 14; 20; 5; 9; 14; 20;
    4; 11; 16; 23; 4; 11; 16; 23; 4; 11; 16; 23; 4; 11; 16; 23;
    6; 10; 15; 21; 6; 10; 15; 21; 6; 10; 15; 21; 6; 10; 15; 21 ].

Record words := { wa : Z; wb : Z; wc : Z; wd : Z }.

Definition IV : words :=
  {| wa := 0x67452301; wb := 0xefcdab89; wc := 0x98badcfe; wd := 0x10325476 |}.

Definition byte_to_Z (b : byte) : Z := Z.of_N (Byte.to_N b).

Definition byte_of_Z (z : Z) : byte :=
  match Byte.of_N (Z.to_N (z mod 256)) with
  | Some b => b
  | None => x00
  end.

(** A little-endian 32-bit word from four bytes. *)
Definition word_of_bytes (bs : list byte) : Z :=
  match bs with
  | b0 :: b1 :: b2 :: b3 :: _ =>
      Z.lor (byte_to_Z b0)
        (Z.lor (Z.shiftl (byte_to_Z b1) 8)
           (Z.lor (Z.shiftl (byte_to_Z b2) 16) (Z.shiftl (byte_to_Z b3) 24)))
  | _ => 0
  end.

Definition bytes_of_word (x : Z) : list byte :=
  [ byte_of_Z x; byte_of_Z (Z.shiftr x 8);
    byte_of_Z (Z.shiftr x 16); byte_of_Z (Z.shiftr x 24) ].

(** The sixteen message words of one block. *)
Definition message (block : list byte) : list Z :=
  List.map (fun g => word_of_bytes (drop (4 * g) block)) (seq 0 16).

Definition round (M : list Z) (v : words) (i : nat) : words :=
  let '(Build_words a b c d) := v in
  let zi := Z.of_nat i in
  let '(f, g) :=
    if zi <? 16 then (Z.lor (Z.land b c) (Z.land (not32 b) d), zi)
    else if zi <? 32 then (Z.lor (Z.land d b) (Z.land (not32 d) c), (5 * zi + 1) mod 16)
    else if zi <? 48 then (Z.lxor b (Z.lxor c d), (3 * zi + 5) mod 16)
    else (Z.lxor c (Z.lor b (not32 d)), (7 * zi) mod 16) in
  let f' := add32 (add32 (add32 f a) (nth i K 0)) (nth (Z.to_nat g) M 0) in
  {| wa := d; wb := add32 b (rotl32 f' (nth i shifts 0)); wc := b; wd := c |}.

(** The compression of one 64-byte block into the chaining words. *)
Definition compress (h : words) (block : list byte) : words :=
  let v := fold_left (round (message block)) (seq 0 64) h in
  {| wa := add32 (wa h) (wa v); wb := add32 (wb h) (wb v);
     wc := add32 (wc h) (wc v); wd := add32 (wd h) (wd v) |}.

(** Compress the first [n] blocks of [data]. *)
Fixpoint absorb (n : nat) (h : words) (data : list byte) : words :=
  match n with
  | O => h
  | S n' => absorb n' (compress h (take 64 data)) (drop 64 data)
  end.

(** The padding of a message of [len] bytes: 0x80, zeros up to 56 modulo
    64, then the length in bits as a little-endian 64-bit number. *)
Definition padding (len : Z) : list byte :=
  let bits := (8 * len) mod 2 ^ 64 in
  x80 :: repeat x00 (Z.to_nat ((55 - len) mod 64))
    ++ bytes_of_word bits ++ bytes_of_word (Z.shiftr bits 32).

Definition digest_bytes (h : words) : list byte :=
  bytes_of_word (wa h) ++ bytes_of_word (wb h)
    ++ bytes_of_word (wc h) ++ bytes_of_word (wd h).

Fixpoint hex (bs : list byte) : string :=
  match bs with
  | [] => EmptyString
  | b :: bs' => pystr.hex2 (Byte.to_N b) +:+ hex bs'
  end.

(** The hash object. *)
Record md5_state := {
  chain : words;
  buffer : list byte;
  count : Z
}.

(** [hashlib.md5()] *)
Definition md5 : md5_state := {| chain := IV; buffer := []; count := 0 |}.

(** [h.update(data)]: the complete blocks of buffer + data are
    compressed, the rest is kept. *)
Definition update (h : md5_state) (data : list byte) : md5_state :=
  let pending := buffer h ++ data in
  let n := (length pending / 64)%nat in
  {| chain := absorb n (chain h) pending;
     buffer := drop (64 * n) pending;
     count := count h + Z.of_nat (length data) |}.

(** [h.hexdigest()]: pads a copy of the state and prints the chain. *)
Definition hexdigest (h : md5_state) : string :=
  let final := buffer h ++ padding (count h) in
  hex (digest_bytes (absorb (length final / 64) (chain h) final)).

End hashlib.

(** ** The file object of [open(name, "rb")] *)

Module io.

(** [f.read(n)] on a buffered binary file whose unread content is [f]:
    the next [n] bytes (fewer at the end of the file, none after it)
    and the content left unread. *)
Definition read (n : nat) (f : list byte) : list byte * list byte :=
  (take n f, drop n f).

(** The bytes that writing an ASCII string to a text file produces. *)
Definition encode (s : string) : list byte := list_byte_of_string s.

End io.

(** ** json *)

Module json.

(** The values [json] maps to and from Python (numbers: integers only);
    a [dict] keeps its insertion order. *)
#[warnings="-register-all"]
Inductive value :=
  | JNull
  | JBool (b : bool)
  | JInt (n : Z)
  | JStr (s : string)
  | JList (l : list value)
  | JDict (d : list (string * value)).

(** One character of a string literal, with [ensure_ascii]: everything
    outside the range from space to tilde is escaped. *)
Definition escape_char (c : ascii) : string :=
  let n := N_of_ascii c in
  if Ascii.eqb c pystr.dquote then String "\" (String pystr.dquote EmptyString)
  else if Ascii.eqb c "\" then "\\"
  else if (n =? 8)%N then "\b"
  else if (n =? 12)%N then "\f"
  else if (n =? 10)%N then "\n"
  else if (n =? 13)%N then "\r"
  else if (n =? 9)%N then "\t"
  else if ((32 <=? n) && (n <=? 126))%N then String c EmptyString
  else "\u00" +:+ pystr.hex2 n.

Fixpoint escape (s : string) : string :=
  match s with
  | EmptyString => EmptyString
  | String c s' => escape_char c +:+ escape s'
  end.

Definition encode_str (s : string) : string :=
  String pystr.dquote (escape s) +:+ String pystr.dquote EmptyString.

Fixpoint spaces (n : nat) : string :=
  match n with
  | O => EmptyString
  | S n' => String " " (spaces n')
  end.

Definition newline_indent (indent level : nat) : string :=
  String (ascii_of_N 10) (spaces (indent * level)).

(** [json.dumps(v, indent=indent)] at nesting depth [level]. *)
Fixpoint dumps_at (indent level : nat) (v : value) : string :=
  match v with
  | JNull => "null"
  | JBool true => "true"
  | JBool false => "false"
  | JInt n => NilZero.string_of_int (Z.to_int n)
  | JStr s => encode_str s
  | JList [] => "[]"
  | JList l =>
      "[" +:+ newline_indent indent (S level)
        +:+ pystr.join ("," +:+ newline_indent indent (S level))
              (List.map (dumps_at indent (S level)) l)
        +:+ newline_indent indent level +:+ "]"
  | JDict [] => "{}"
  | JDict d =>
      "{" +:+ newline_indent indent (S level)
        +:+ pystr.join ("," +:+ newline_indent indent (S level))
              (List.map (fun kv => match kv with
                                   | (k, x) => encode_str k +:+ ": "
                                                 +:+ dumps_at indent (S level) x
                                   end) d)
        +:+ newline_indent indent level +:+ "}"
  end.

Definition dumps (v : value) (indent : nat) : string := dumps_at indent 0 v.

(** [d[key]] for a value that is a dict. *)
Fixpoint assoc (key : string) (d : list (string * value)) : option value :=
  match d with
  | [] => None
  | (k, x) :: d' => if String.eqb k key then Some x else assoc key d'
  end.

Definition getitem (v : value) (key : string) : option value :=
  match v with
  | JDict d => assoc key d
  | _ => None
  end.

End json.

(** ** tarfile *)

Module tarfile.

(** A member handed to [TarFile.add]: the path read from and the name
    recorded in the archive. *)
Definition member : Type := pathlib.PurePath * string.

(** The name [gettarinfo] records for [arcname]: without its leading
    slashes. *)
Definition recorded (arcname : string) : string := pystr.lstrip_char "/" arcname.

Section Add.

(** The exception, if any, that [add] raises while it reads the member
    at a path and, for a directory, all that lies below it. *)
Variable tarfile_reads : World -> pathlib.PurePath -> string -> option exn.

(** [tar.add(name, arcname)] on the archive whose [name] attribute is
    [self_name].  With [None] for [name] the call fails on
    [os.path.abspath(name)] before anything is written; the archive's
    own file is skipped without a word. *)
Definition add (w : World) (self_name : string) (tar : list member)
  (name : option pathlib.PurePath) (arcname : string) : result (list member) :=
  match name with
  | None =>
      Err (Raise TypeError "expected str, bytes or os.PathLike object, not NoneType")
  | Some p =>
      if String.eqb (posixpath.abspath w (pathlib.to_str p)) self_name then Ok tar
      else
        match tarfile_reads w p arcname with
        | Some e => Err e
        | None => Ok (tar ++ [(p, recorded arcname)])
        end
  end.

End Add.

End tarfile.

(** ** archive.py *)

Module archive.

Import pathlib.

(** The attributes of an [Archive] object. *)
Record Archive := {
  __root : string;
  __items : list string;
  __base_name : string;
  __packed : bool;
  __timestamp : string
}.

(** The size of the chunks [get_md5] reads. *)
Definition CHUNK : nat := N.to_nat 8192.

Global Opaque CHUNK.

Definition is_valid_dir (w : World) (directory : pathlike) : result bool :=
  is_dir w (Path directory).

Definition is_valid_file (w : World) (fname : pathlike) : result bool :=
  is_file w (Path fname).

(** [is_valid_dir(item) or is_valid_file(item)] *)
Definition is_valid_item (w : World) (item : pathlike) : result bool :=
  match is_valid_dir w item with
  | Err e => Err e
  | Ok true => Ok true
  | Ok false => is_valid_file w item
  end.

(** [None] when root / ext names nothing. *)
Definition join_path (w : World) (root ext : string) : result (option PurePath) :=
  let full := truediv (Path (PStr root)) ext in
  match is_valid_item w (PPath full) with
  | Err e => Err e
  | Ok false => Ok None
  | Ok true => Ok (Some full)
  end.

Definition is_packed (self : Archive) : bool := __packed self.

Definition get_root (self : Archive) : string := __root self.

Definition get_items (self : Archive) : list string := __items self.

Definition get_name (self : Archive) (packed : bool) : string :=
  let extension := if packed then ".tgz" else ".tar" in
  __base_name self +:+ "-" +:+ __timestamp self +:+ extension.

(** The loop of [get_md5]: [while chunk: fhash.update(chunk);
    chunk = f.read(8192)], with [f] the content not read yet. *)
Equations? read_loop (fhash : hashlib.md5_state) (chunk f : list byte)
  : hashlib.md5_state by wf (length chunk + length f)%nat lt :=
  read_loop fhash [] f := fhash;
  read_loop fhash (b :: bs) f :=
    read_loop (hashlib.update fhash (b :: bs))
      (fst (io.read CHUNK f)) (snd (io.read CHUNK f)).
Proof.
  rewrite length_take, length_drop. lia.
Qed.

(** The body of the [with] block of [get_md5] and the [return] after
    it, on a file just opened whose content is [content]. *)
Definition hash_file (content : list byte) : string :=
  let fhash := hashlib.md5 in
  let (chunk, f) := io.read CHUNK content in
  hashlib.hexdigest (read_loop fhash chunk f).

Definition get_md5 (w : World) (self : Archive) : result string :=
  if negb (is_packed self) then
    Err (Raise ArchiveException
           "Archive needs to be packed before generating md5sum.")
  else
    match builtins.open_read w (get_name self true) with
    | Err e => Err e
    | Ok content => Ok (hash_file content)
    end.

(** [_set_root]: the value stored in [__root], or the exception. *)
Definition _set_root (w : World) (root : string) : result string :=
  match is_valid_dir w (PStr root) with
  | Err e => Err e
  | Ok false =>
      Err (Raise ArchiveException "'root directory' provided is not valid.")
  | Ok true => Ok root
  end.

(** One turn of the loop of [_set_items] on the list [__items]. *)
Definition _set_items_body (w : World) (root : string)
  (items : list string) (item : string) : result (list string) :=
  match is_valid_item w (PStr item) with
  | Err e => Err e
  | Ok true => Ok (items ++ [item])
  | Ok false =>
      let alt_item := truediv (Path (PStr root)) item in
      match is_valid_item w (PPath alt_item) with
      | Err e => Err e
      | Ok true => Ok (items ++ [item])
      | Ok false => Ok items
      end
  end.

(** [_set_items] on an object whose attributes are [root] and [items0]:
    the new value of [__items], or the exception that ended the loop. *)
Fixpoint _set_items (w : World) (root : string) (items0 : list string)
  (items : list string) : result (list string) :=
  match items with
  | [] => Ok items0
  | item :: rest =>
      match _set_items_body w root items0 item with
      | Err e => Err e
      | Ok items1 => _set_items w root items1 rest
      end
  end.

(** [_set_name]: the value stored in [__base_name]. *)
Definition _set_name (name : string) : string :=
  let name := if negb (pystr.truthy (pystr.strip name)) then "Archive" else name in
  pystr.strip name.

(** [Archive(froot, fitems, base_name, packed)] *)
Definition __init__ (w : World) (froot : string) (fitems : list string)
  (base_name : string) (packed : bool) : result Archive :=
  match _set_root w froot with
  | Err e => Err e
  | Ok root =>
      match _set_items w root [] fitems with
      | Err e => Err e
      | Ok items =>
          Ok {| __root := root;
                __items := items;
                __base_name := _set_name base_name;
                __packed := packed;
                __timestamp := pytime.strftime (now w) |}
      end
  end.

Definition set_packed (self : Archive) : Archive :=
  {| __root := __root self; __items := __items self;
     __base_name := __base_name self; __packed := true;
     __timestamp := __timestamp self |}.

Section Pack.

(** What [TarFile.add] raises while reading a member, if anything. *)
Variable tarfile_reads : World -> PurePath -> string -> option exn.

(** The loop of [pack] over the items, on the archive whose [name]
    attribute is [self_name]: the members added, and the exception that
    stopped it, if any. *)
Fixpoint pack_loop (w : World) (self_name : string) (root : string)
  (tar : list tarfile.member) (items : list string)
  : list tarfile.member * option exn :=
  match items with
  | [] => (tar, None)
  | item :: rest =>
      match join_path w root item with
      | Err e => (tar, Some e)
      | Ok name =>
          match tarfile.add tarfile_reads w self_name tar name item with
          | Err e => (tar, Some e)
          | Ok tar' => pack_loop w self_name root tar' rest
          end
      end
  end.

(** The gzip-compressed tar stream that [tarfile] writes for a list of
    members, read from the given world; the flag tells whether the
    archive was closed in order or abandoned on an exception. *)
Variable tarfile_bytes : World -> list tarfile.member -> bool -> list byte.

(** [pack]: the world and the object afterwards, or the exception. *)
Definition pack (w : World) (self : Archive) : World * result Archive :=
  match builtins.open_write w (get_name self true) with
  | Err e => (w, Err e)
  | Ok (f, w1) =>
      let self_name := posixpath.abspath w (get_name self true) in
      match pack_loop w1 self_name (get_root self) [] (get_items self) with
      | (tar, Some e) => (os.put w1 f (tarfile_bytes w1 tar false), Err e)
      | (tar, None) =>
          (os.put w1 f (tarfile_bytes w1 tar true), Ok (set_packed self))
      end
  end.

(** The public operations of an [Archive] and what a call returns. *)
Inductive call :=
  | Cis_packed | Cget_root | Cget_items | Cget_name (packed : bool)
  | Cget_md5 | Cpack
  | Cis_valid_dir (directory : pathlike) | Cis_valid_file (fname : pathlike)
  | Cis_valid_item (item : pathlike) | Cjoin_path (root ext : string).

Inductive returned :=
  | RNone
  | RBool (b : bool)
  | RStr (s : string)
  | RList (l : list string)
  | RPath (p : option PurePath).

Definition returning {A} (f : A -> returned) (r : result A) : result returned :=
  match r with
  | Ok a => Ok (f a)
  | Err e => Err e
  end.

Definition invoke (c : call) (w : World) (self : Archive)
  : World * Archive * result returned :=
  match c with
  | Cis_packed => (w, self, Ok (RBool (is_packed self)))
  | Cget_root => (w, self, Ok (RStr (get_root self)))
  | Cget_items => (w, self, Ok (RList (get_items self)))
  | Cget_name packed => (w, self, Ok (RStr (get_name self packed)))
  | Cget_md5 =>
      match get_md5 w self with
      | Ok d => (w, self, Ok (RStr d))
      | Err e => (w, self, Err e)
      end
  | Cpack =>
      match pack w self with
      | (w', Ok self') => (w', self', Ok RNone)
      | (w', Err e) => (w', self, Err e)
      end
  | Cis_valid_dir directory => (w, self, returning RBool (is_valid_dir w directory))
  | Cis_valid_file fname => (w, self, returning RBool (is_valid_file w fname))
  | Cis_valid_item item => (w, self, returning RBool (is_valid_item w item))
  | Cjoin_path root ext => (w, self, returning RPath (join_path w root ext))
  end.

(** A sequence of calls on one object; exceptions are caught by the
    caller and the sequence goes on. *)
Fixpoint invoke_all (cs : list call) (w : World) (self : Archive)
  : World * Archive :=
  match cs with
  | [] => (w, self)
  | c :: cs' =>
      match invoke c w self with
      | (w', self', _) => invoke_all cs' w' self'
      end
  end.

End Pack.

End archive.

(** ** bak.py *)

Module bak.

(** The parsed command line, as [get_args] returns it; [argparse] sets
    exactly one of [use] and [create]. *)
Record Namespace := {
  use : bool;
  create : bool;
  silent : bool;
  config : string
}.

Definition newline : string := String (ascii_of_N 10) EmptyString.

(** [nprint] of its arguments, with the global [SILENT_OUTPUT];
    [stdout] is what the process has written so far. *)
Definition nprint (SILENT_OUTPUT : bool) (stdout : list string)
  (args : list string) : list string :=
  if negb SILENT_OUTPUT then stdout ++ [pystr.join " " args +:+ newline]
  else stdout.

(** [str(Path.home())] *)
Definition home_str (w : World) : string :=
  pathlib.to_str (pathlib.parse (home w)).

(** The dict [create_config] writes. *)
Definition template (w : World) : json.value :=
  json.JDict
    [ ("root", json.JStr (home_str w));
      ("files", json.JList [json.JStr "pictures"; json.JStr "videos/funny_vid.mp4"]) ].

Definition create_config (w : World) (fname : string) : World * result unit :=
  let config := template w in
  let try : World * result unit :=
    match pathlib.is_file w (pathlib.Path (pathlib.PStr fname)) with
    | Err e => (w, Err e)
    | Ok true => (w, Err (Raise ConfigError "File already exists."))
    | Ok false =>
        match builtins.open_write w fname with
        | Err e => (w, Err e)
        | Ok (f, w1) => (os.put w1 f (io.encode (json.dumps config 4)), Ok tt)
        end
    end in
  match try with
  | (w', Err exc) =>
      if isinstance exc OSError then
        (w', Err (Raise ConfigError
                    ("Could not create '" +:+ fname +:+ "': " +:+ exc_str exc)))
      else (w', Err exc)
  | done => done
  end.

Section Load.

(** [json.load] on the content of a file: the value, or the exception
    of the decoder. *)
Variable json_load : list byte -> result json.value.

Definition load_config (w : World) (fname : string) : result json.value :=
  let try : result json.value :=
    match pathlib.is_file w (pathlib.Path (pathlib.PStr fname)) with
    | Err e => Err e
    | Ok false =>
        Err (Raise ConfigError
               "Configuration provided either does not exist or it is not a file.")
    | Ok true =>
        match builtins.open_read w fname with
        | Err e => Err e
        | Ok content =>
            match json_load content with
            | Err e => Err e
            | Ok data => Ok data
            end
        end
    end in
  match try with
  | Err exc =>
      if isinstance exc OSError then
        Err (Raise ConfigError
               ("Could not load '" +:+ fname +:+ "': " +:+ exc_str exc))
      else Err exc
  | Ok data => Ok data
  end.

(** How [main] ends: it returns, it leaves through [sys.exit(code)], or
    an exception escapes it. *)
Inductive outcome :=
  | Return
  | Exit (code : Z)
  | Uncaught (e : exn).

(** The two [except] clauses of [main]. *)
Definition handlers (SILENT_OUTPUT : bool) (e : exn) : list string * outcome :=
  if isinstance e ConfigError then
    (nprint SILENT_OUTPUT [] [exc_str e], Exit (-1))
  else if isinstance e Exception then
    (nprint SILENT_OUTPUT []
       ["Unknown error occurred while loading or creating configuration a file: "
          +:+ exc_str e],
     Exit (-1))
  else ([], Uncaught e).

(** [main()] with [args] the result of [get_args()]: the world
    afterwards, what was printed and how the call ended. *)
Definition main (w : World) (args : Namespace) : World * (list string * outcome) :=
  let SILENT_OUTPUT := silent args in
  let config_name := config args in
  if use args then
    match load_config w config_name with
    | Ok _ => (w, ([], Return))
    | Err e => (w, handlers SILENT_OUTPUT e)
    end
  else
    match create_config w config_name with
    | (w', Ok _) =>
        (w', (nprint SILENT_OUTPUT [] ["Created '" +:+ config_name +:+ "'."], Exit 0))
    | (w', Err e) => (w', handlers SILENT_OUTPUT e)
    end.

End Load.

End bak.

(** ** Reference definitions

    What the specification says, written on its own terms, to compare
    with the functions above. *)

(** The MD5 of a whole message as RFC 1321 states it: pad the message,
    cut it into 64-byte blocks, compress them in order from the initial
    words and print the four words. *)
Definition md5_reference (content : list byte) : string :=
  let padded := content ++ hashlib.padding (Z.of_nat (length content)) in
  hashlib.hex
    (hashlib.digest_bytes
       (hashlib.absorb (length padded / 64) hashlib.IV padded)).

(** Calling [hashlib.md5(content).hexdigest()]: one pass over the whole
    content. *)
Definition md5_one_pass (content : list byte) : string :=
  hashlib.hexdigest (hashlib.update hashlib.md5 content).

Definition is_lower_hex (c : ascii) : bool :=
  let n := N_of_ascii c in
  ((48 <=? n) && (n <=? 57) || (97 <=? n) && (n <=? 102))%N.

Fixpoint all_chars (p : ascii → bool) (s : string) : bool :=
  match s with
  | EmptyString => true
  | String c s' => p c && all_chars p s'
  end.

Definition head_char (s : string) : option ascii :=
  match s with
  | EmptyString => None
  | String c _ => Some c
  end.

Fixpoint last_char (s : string) : option ascii :=
  match s with
  | EmptyString => None
  | String c EmptyString => Some c
  | String _ s' => last_char s'
  end.

(** The question item resolution asks of a candidate: is it valid as
    given, or valid under the root?  The second test is made when the
    first says no; a test that raises leaves the question open. *)
Definition resolves (w : World) (root : string) (candidate : string)
  : result bool :=
  match archive.is_valid_item w (pathlib.PStr candidate) with
  | Ok false =>
      archive.is_valid_item w
        (pathlib.PPath (pathlib.truediv (pathlib.parse root) candidate))
  | answer => answer
  end.

(** The candidates to keep: those for which the answer is yes. *)
Definition kept (w : World) (root : string) (candidate : string) : bool :=
  match resolves w root candidate with
  | Ok true => true
  | _ => false
  end.

(** The first candidate, in the order of the list, whose test raises,
    with what it raises. *)
Fixpoint first_raise (w : World) (root : string) (candidates : list string)
  : option (string * exn) :=
  match candidates with
  | [] => None
  | c :: rest =>
      match resolves w root c with
      | Err e => Some (c, e)
      | Ok _ => first_raise w root rest
      end
  end.

(** A name the file system can hold: at most [NAME_MAX] bytes. *)
Definition short (name : string) : bool :=
  (os.fsencode_len name <=? os.NAME_MAX)%N.



(** The bytes of a list of components, a slash after each. *)
Fixpoint weight (comps : list string) : N :=
  match comps with
  | [] => 0%N
  | c :: cs => (os.fsencode_len c + 1 + weight cs)%N
  end.

(** The path objects that [Path] and [/] make: one of the three roots,
    and parts that are names. *)
Definition well_formed (p : pathlib.PurePath) : Prop :=
  (pathlib.anchor p = EmptyString ∨ pathlib.anchor p = "/"
   ∨ pathlib.anchor p = "//")
  ∧ Forall (λ x, pathlib.is_part x = true) (pathlib.parts p)
  ∧ Forall (λ x, pystr.contains "/" x = false) (pathlib.parts p).

(** Where the string of a path object starts, and the components it
    has: those of the object, or the one dot that stands for none. *)
Definition start_of (w : World) (p : pathlib.PurePath) : list string :=
  if pystr.truthy (pathlib.anchor p) then [] else cwd w.

Definition comps_of (p : pathlib.PurePath) : list string :=
  match pathlib.anchor p, pathlib.parts p with
  | EmptyString, [] => ["."]
  | _, ps => ps
  end.

(** The two answers about a path that count as the same for a test of
    what is there: equal ones, and "not a directory" for the path with
    a slash or a dot after the name of a file. *)
Definition same_answer (raw norm : os.errno + (list string * node)) : Prop :=
  norm = raw
  ∨ (raw = inl os.ENOTDIR ∧ ∃ p data, norm = inr (p, File data)).

(** The base name of the output: the argument trimmed, or the sentinel
    when nothing is left. *)
Definition base_name_of (arg : string) : string :=
  match pystr.strip arg with
  | EmptyString => "Archive"
  | trimmed => trimmed
  end.

Definition extension_of (packed : bool) : string :=
  if packed then ".tgz" else ".tar".

(** Is root / item the archive that is being written? *)
Definition is_archive_itself (w : World) (self_name root item : string) : bool :=
  String.eqb
    (posixpath.abspath w (pathlib.to_str (pathlib.truediv (pathlib.parse root) item)))
    self_name.

(** The members [pack] is to add for a list of items: each read from
    root / item and recorded under the item without its leading
    slashes, but for the archive itself, which is left out. *)
Definition expected_members (w : World) (self_name root : string)
  (items : list string) : list tarfile.member :=
  List.map
    (λ item, (pathlib.truediv (pathlib.parse root) item, tarfile.recorded item))
    (List.filter (λ item, negb (is_archive_itself w self_name root item)) items).

(** An item that [pack] can add: it names something under the root,
    and the tar writer can read it, unless it is the archive itself,
    which is not read. *)
Definition can_add (tarfile_reads : World → pathlib.PurePath → string → option exn)
  (w : World) (self_name root item : string) : Prop :=
  archive.join_path w root item
  = Ok (Some (pathlib.truediv (pathlib.parse root) item))
  ∧ (is_archive_itself w self_name root item = false →
     tarfile_reads w (pathlib.truediv (pathlib.parse root) item) item = None).

(** ** Sample data *)

Definition clock0 : datetime :=
  {| year := 2024; month := 3; day := 9; hour := 7; minute := 5; second := 0 |}.

(** A working directory /work with a file notes.txt, a directory /data
    with a directory pics and a picture in it, and a configuration file
    /work/bak.json. *)
Definition world0 : World :=
  {| cwd := ["work"];
     fs := list_to_map
             [ (["work"], Dir);
               (["work"; "notes.txt"], File [x68; x69]);
               (["work"; "bak.json"], File [x7b; x7d]);
               (["data"], Dir);
               (["data"; "pics"], Dir);
               (["data"; "pics"; "a.png"], File [x01; x02]) ];
     home := "/home/u";
     now := clock0 |}.

(** [world0] with an archive of an earlier run in the working directory. *)
Definition world1 : World :=
  os.put world0 ["work"; "Archive-20240309-070500.tgz"] [x61; x62; x63].

(** A stand-in for the tar writer: the archive names, one per line. *)
Definition names_only (w : World) (tar : list tarfile.member) (closed : bool)
  : list byte :=
  io.encode (pystr.join bak.newline (List.map snd tar)).

(** A tar writer that can read every member. *)
Definition reads_all (w : World) (name : pathlib.PurePath) (arcname : string)
  : option exn := None.

(** A tar writer that fails on one member, as it does on a file it may
    not read. *)
Definition reads_but (denied : string) (w : World) (name : pathlib.PurePath)
  (arcname : string) : option exn :=
  if String.eqb (pathlib.to_str name) denied then
    Some (Raise PermissionError
            ("[Errno 13] Permission denied: " +:+ pystr.repr denied))
  else None.

(** A name of 300 letters, longer than any file's. *)
Definition long_name : string := string_of_list_ascii (repeat "a"%char 300).

(** A name with a zero byte. *)
Definition nul_name : string := String Ascii.zero "x".

(** A stand-in for the JSON decoder that knows one document. *)
Definition empty_object_only (content : list byte) : result json.value :=
  match content with
  | [x7b; x7d] => Ok (json.JDict [])
  | _ => Err (Raise JSONDecodeError "Expecting value: line 1 column 1 (char 0)")
  end.

(** An object for /data with the directory pics as its one item. *)
Definition archive0 : archive.Archive :=
  {| archive.__root := "/data"; archive.__items := ["pics"];
     archive.__base_name := "Archive"; archive.__packed := false;
     archive.__timestamp := "20240309-070500" |}.

(** An object whose one item exists in the working directory only. *)
Definition archive_stray : archive.Archive :=
  {| archive.__root := "/data"; archive.__items := ["notes.txt"];
     archive.__base_name := "Archive"; archive.__packed := false;
     archive.__timestamp := "20240309-070500" |}.

(** An object for /work whose items are the archive of an earlier run,
    which has the name of its own, and a file given by its full path. *)
Definition archive_self : archive.Archive :=
  {| archive.__root := "/work";
     archive.__items := ["Archive-20240309-070500.tgz"; "/work/notes.txt"];
     archive.__base_name := "Archive"; archive.__packed := false;
     archive.__timestamp := "20240309-070500" |}.

(** Where [archive0] puts its archive in [world0]. *)
Definition tgz0 : list string := ["work"; "Archive-20240309-070500.tgz"].

Fixpoint bytes_eqb (a b : list byte) : bool :=
  match a, b with
  | [], [] => true
  | x :: a', y :: b' => Byte.eqb x y && bytes_eqb a' b'
  | _, _ => false
  end.

(** A stand-in for the JSON decoder that knows the template of a world. *)
Definition template_only (w : World) (content : list byte) : result json.value :=
  if bytes_eqb content (io.encode (json.dumps (bak.template w) 4))
  then Ok (bak.template w)
  else Err (Raise JSONDecodeError "Expecting value: line 1 column 1 (char 0)").

(** * Properties *)

(** ** hashlib.md5: streaming equals hashing in one pass *)

Section MD5.

Import hashlib.

Lemma absorb_plus n m h d :
  absorb (n + m) h d = absorb m (absorb n h d) (drop (64 * n) d).
Proof.
  revert h d. induction n as [|n IH]; intros h d.
  - reflexivity.
  - cbn [absorb Nat.add]. rewrite IH, drop_drop.
    do 2 f_equal. lia.
Qed.

Lemma absorb_prefix n h a b :
  64 * n <= length a → absorb n h (a ++ b) = absorb n h a.
Proof.
  revert h a. induction n as [|n IH]; intros h a Hlen.
  - reflexivity.
  - cbn [absorb].
    rewrite take_app_le, drop_app_le by lia.
    apply IH. rewrite length_drop. lia.
Qed.

Lemma blocks_split (a b : list byte) :
  let n := length a / 64 in
  length (a ++ b) / 64 = n + length (drop (64 * n) a ++ b) / 64.
Proof.
  intros n. rewrite !length_app, length_drop.
  pose proof (Nat.div_mod_eq (length a) 64) as E.
  pose proof (Nat.Div0.mul_div_le (length a) 64) as L.
  fold n in E, L.
  replace (length a + length b) with (n * 64 + (length a - 64 * n + length b)) by lia.
  rewrite Nat.div_add_l by lia. reflexivity.
Qed.

(** Compressing the blocks of [a ++ b] is compressing the blocks of [a]
    and then the blocks of what [a] left over followed by [b]. *)
Lemma absorb_split h (a b : list byte) :
  let n := length a / 64 in
  let rest := drop (64 * n) a ++ b in
  absorb (length (a ++ b) / 64) h (a ++ b)
    = absorb (length rest / 64) (absorb n h a) rest
  ∧ drop (64 * (length (a ++ b) / 64)) (a ++ b)
    = drop (64 * (length rest / 64)) rest.
Proof.
  intros n rest.
  pose proof (Nat.Div0.mul_div_le (length a) 64) as L. fold n in L.
  assert (Hrest : drop (64 * n) (a ++ b) = rest).
  { unfold rest. rewrite drop_app_le by lia. reflexivity. }
  rewrite (blocks_split a b). fold n. fold rest. split.
  - rewrite absorb_plus, Hrest, absorb_prefix by lia. reflexivity.
  - rewrite Nat.mul_add_distr_l, <- drop_drop, Hrest. reflexivity.
Qed.

(** Two updates are one update with the concatenation. *)
Lemma update_app h (a b : list byte) :
  update (update h a) b = update h (a ++ b).
Proof.
  unfold update; cbn [chain buffer count].
  destruct (absorb_split (chain h) (buffer h ++ a) b) as [Hc Hb].
  cbv zeta in Hc, Hb.
  rewrite (app_assoc (buffer h) a b), Hc, Hb.
  f_equal. rewrite length_app. lia.
Qed.

Lemma update_buffer h (a : list byte) : length (buffer (update h a)) < 64.
Proof.
  unfold update; cbn [buffer]. rewrite length_drop.
  pose proof (Nat.div_mod_eq (length (buffer h ++ a)) 64).
  pose proof (Nat.mod_upper_bound (length (buffer h ++ a)) 64 ltac:(lia)).
  lia.
Qed.

Lemma update_nil h : length (buffer h) < 64 → update h [] = h.
Proof.
  intros Hb. unfold update. rewrite app_nil_r.
  rewrite Nat.div_small by lia. cbn [absorb]. rewrite Nat.mul_0_r, drop_0.
  destruct h; cbn. f_equal. lia.
Qed.

Lemma CHUNK_pos : 0 < archive.CHUNK.
Proof. apply Nat.ltb_lt. vm_compute. reflexivity. Qed.

(** The loop of [get_md5] feeds the accumulator everything that is
    left: the chunk in hand and the unread rest.  A chunk is empty only
    at the end of the file. *)
Lemma read_loop_update fhash chunk (f : list byte) :
  length (buffer fhash) < 64 →
  (chunk = [] → f = []) →
  archive.read_loop fhash chunk f = update fhash (chunk ++ f).
Proof.
  funelim (archive.read_loop fhash chunk f); intros Hb Hend.
  - rewrite (Hend eq_refl). symmetry. apply update_nil, Hb.
  - rewrite H.
    + unfold io.read; cbn [fst snd]. rewrite take_drop. apply update_app.
    + apply update_buffer.
    + unfold io.read; cbn [fst snd]. intros Hnil.
      pose proof CHUNK_pos.
      destruct f as [|x f]; [reflexivity|].
      destruct archive.CHUNK; [lia | discriminate].
Qed.

(** The padded message has no incomplete block. *)
Lemma padded_length (content : list byte) :
  length (content ++ padding (Z.of_nat (length content))) mod 64 = 0.
Proof.
  unfold padding. rewrite length_app. cbn [length].
  rewrite !length_app, repeat_length. cbn [bytes_of_word length].
  set (n := length content).
  pose proof (Z.mod_pos_bound (55 - Z.of_nat n) 64 ltac:(lia)) as Hz.
  apply Nat2Z.inj. rewrite Nat2Z.inj_mod.
  replace (Z.of_nat (n + S (Z.to_nat ((55 - Z.of_nat n) mod 64) + (4 + 4))))
    with (Z.of_nat n + 9 + (55 - Z.of_nat n) mod 64)%Z by lia.
  rewrite <- Zplus_mod_idemp_r, Zmod_mod, Zplus_mod_idemp_r.
  replace (Z.of_nat n + 9 + (55 - Z.of_nat n))%Z with (1 * 64)%Z by lia.
  apply Z_mod_mult.
Qed.

(** One [update] with the whole content, then [hexdigest], is the MD5
    of the reference definition. *)
Lemma one_pass_reference (content : list byte) :
  hexdigest (update md5 content) = md5_reference content.
Proof.
  unfold hexdigest, md5_reference, update, md5; cbn [chain buffer count app].
  destruct (absorb_split IV content (padding (Z.of_nat (length content)))) as [Hc _].
  cbv zeta in Hc. rewrite Z.add_0_l, Hc. reflexivity.
Qed.

(** C4. For every content, the empty one included, the digest that
    [get_md5] computes by reading 8192-byte chunks into the streaming
    accumulator is the MD5 of the whole content: the one RFC 1321
    defines, and the one a single pass of [hashlib.md5] returns. *)
Theorem chunked_digest_is_whole_md5 (content : list byte) :
  archive.hash_file content = md5_reference content
  ∧ archive.hash_file content = md5_one_pass content.
Proof.
  assert (E : archive.hash_file content = md5_one_pass content).
  { unfold archive.hash_file, md5_one_pass, io.read.
    rewrite read_loop_update.
    - rewrite take_drop. reflexivity.
    - cbn. lia.
    - intros Hnil. pose proof CHUNK_pos.
      destruct content as [|x content]; [reflexivity|].
      destruct archive.CHUNK; [lia | discriminate]. }
  split; [|exact E].
  rewrite E. apply one_pass_reference.
Qed.

End MD5.

(** The model of MD5 on the test suite of RFC 1321 and on contents that
    take one and two reads. *)
Example md5_empty :
  archive.hash_file [] = "d41d8cd98f00b204e9800998ecf8427e".
Proof. vm_compute. reflexivity. Qed.

Example md5_abc :
  archive.hash_file [x61; x62; x63] = "900150983cd24fb0d6963f7d28e17f72".
Proof. vm_compute. reflexivity. Qed.

Example md5_two_reads :
  archive.hash_file (repeat x61 (N.to_nat 10000))
  = "0d0c9c4db6953fee9e03f528cafd7d3e".
Proof. vm_compute. reflexivity. Qed.

(** ** The format of a digest *)

Section Digest.

Import hashlib.

Lemma hexdigit_lower n : (n < 16)%N → is_lower_hex (pystr.hexdigit n) = true.
Proof.
  intros Hn. destruct n as [|p]; [reflexivity|].
  do 4 (destruct p as [p|p|]; try reflexivity); lia.
Qed.

Lemma hex2_lower b : all_chars is_lower_hex (pystr.hex2 (Byte.to_N b)) = true.
Proof.
  pose proof (Byte.to_N_bounded b) as Hb.
  unfold pystr.hex2; cbn [all_chars].
  rewrite !hexdigit_lower; [reflexivity | |].
  - apply N.mod_lt. lia.
  - apply N.Div0.div_lt_upper_bound. lia.
Qed.

Lemma hex_cons b bs :
  hex (b :: bs)
  = String (pystr.hexdigit (Byte.to_N b / 16))
      (String (pystr.hexdigit (Byte.to_N b mod 16)) (hex bs)).
Proof. reflexivity. Qed.

Lemma hex_length bs : String.length (hex bs) = 2 * length bs.
Proof.
  induction bs as [|b bs IH]; [reflexivity|].
  rewrite hex_cons. change (String.length (String ?a (String ?c ?r)))
    with (S (S (String.length r))).
  rewrite IH. cbn [length]. lia.
Qed.

Lemma hex_lower bs : all_chars is_lower_hex (hex bs) = true.
Proof.
  induction bs as [|b bs IH]; [reflexivity|].
  pose proof (hex2_lower b) as H2. revert H2.
  rewrite hex_cons. unfold pystr.hex2. cbn [all_chars]. rewrite IH.
  intros H2. apply andb_prop in H2 as [-> H2]. apply andb_prop in H2 as [-> _].
  reflexivity.
Qed.

(** A hex digest is 32 characters out of 0-9 and a-f. *)
Lemma hexdigest_format h :
  String.length (hexdigest h) = 32 ∧ all_chars is_lower_hex (hexdigest h) = true.
Proof.
  unfold hexdigest. split; [|apply hex_lower].
  rewrite hex_length. reflexivity.
Qed.

End Digest.

(** ** The file system: a file just created is found again *)

Section FileSystem.

Import os.

Implicit Types (m : gmap (list string) node) (p cur d : list string).

Lemma node_at_insert_ne m p q x :
  q ≠ p → node_at (<[p := x]> m) q = node_at m q.
Proof.
  intros Hne. destruct q; [reflexivity|].
  cbn. apply lookup_insert_ne. congruence.
Qed.

Lemma node_at_insert_eq m p x :
  p ≠ [] → node_at (<[p := x]> m) p = Some x.
Proof.
  intros Hne. destruct p; [congruence|]. cbn. apply lookup_insert_eq.
Qed.

Lemma enter_insert_file m p data cur c cur' :
  node_at m p ≠ Some Dir →
  enter m cur c = inr cur' →
  enter (<[p := File data]> m) cur c = inr cur'.
Proof.
  intros Hp. unfold enter.
  destruct (node_at m cur) as [[?|]|] eqn:Hcur; try discriminate.
  assert (cur ≠ p) by congruence.
  rewrite node_at_insert_ne, Hcur by assumption.
  destruct (_ || _); [trivial|].
  destruct (String.eqb c ".."); [trivial|].
  destruct (NAME_MAX <? fsencode_len c)%N; [discriminate|].
  destruct (node_at m (cur ++ [c])) eqn:Hc; [|discriminate].
  intros [= <-].
  destruct (decide (cur ++ [c] = p)) as [<-|Hne].
  - rewrite node_at_insert_eq; [reflexivity|]. by destruct cur.
  - rewrite node_at_insert_ne, Hc by assumption. reflexivity.
Qed.

Lemma walk_insert_file m p data comps : ∀ cur d,
  node_at m p ≠ Some Dir →
  walk m cur comps = inr d →
  walk (<[p := File data]> m) cur comps = inr d.
Proof.
  induction comps as [|c cs IH]; intros cur d Hp; cbn [walk]; [trivial|].
  destruct (enter m cur c) as [e|cur'] eqn:He; [discriminate|].
  rewrite (enter_insert_file _ _ _ _ _ _ Hp He). apply IH, Hp.
Qed.

Lemma walk_app m comps comps' : ∀ cur,
  walk m cur (comps ++ comps')
  = match walk m cur comps with
    | inl e => inl e
    | inr d => walk m d comps'
    end.
Proof.
  induction comps as [|c cs IH]; intros cur; cbn [walk app]; [reflexivity|].
  destruct (enter m cur c); [reflexivity | apply IH].
Qed.

Lemma trim_end_prefix comps :
  ∃ k, comps = trim_end comps ++ repeat EmptyString k.
Proof.
  induction comps as [|c cs [k IH]]; [by exists 0|].
  cbn [trim_end]. destruct (trim_end cs) as [|r rs] eqn:Hr.
  - destruct (String.eqb_spec c EmptyString) as [->|Hc].
    + exists (S k). cbn in *. congruence.
    + exists k. cbn in *. congruence.
  - exists k. cbn in *. congruence.
Qed.

Lemma trim_end_same comps :
  (length (trim_end comps) <? length comps)%nat = false → trim_end comps = comps.
Proof.
  intros Hlen. apply Nat.ltb_ge in Hlen.
  destruct (trim_end_prefix comps) as [k Hk].
  rewrite Hk in Hlen at 1. rewrite length_app, repeat_length in Hlen.
  assert (k = 0) as -> by lia.
  rewrite Hk at 2. cbn. by rewrite app_nil_r.
Qed.

Lemma trim_end_last comps :
  trim_end comps ≠ [] → List.last (trim_end comps) EmptyString ≠ EmptyString.
Proof.
  induction comps as [|c cs IH]; [done|].
  cbn [trim_end]. destruct (trim_end cs) as [|r rs] eqn:Hr.
  - destruct (String.eqb_spec c EmptyString); [done|]. cbn. done.
  - intros _. cbn [List.last]. apply IH. done.
Qed.

Lemma put_put w p data data' :
  put (put w p data) p data' = put w p data'.
Proof.
  unfold put; cbn. f_equal. apply insert_insert_eq.
Qed.

(** After [open(path, "w")] and a write of [data], [stat] on the same
    path finds the file with that content. *)
Lemma stat_after_creat w path p data :
  creat w path = inr p →
  stat (put w p data) path = inr (p, File data).
Proof.
  unfold creat, stat, resolve.
  destruct (PATH_MAX <=? fsencode_len path)%N; [discriminate|].
  destruct path as [|a path']; [discriminate|].
  set (name := String a path'). set (comps := pystr.split "/" name).
  destruct (trim_end comps) as [|n0 ns] eqn:Hnamed; [discriminate|].
  set (named := n0 :: ns) in *.
  destruct (walk (fs w) (start w name) (removelast named)) as [e|d] eqn:Hwalk;
    [discriminate|].
  destruct (node_at (fs w) d) as [[?|]|] eqn:Hd; try discriminate.
  set (c := List.last named EmptyString).
  destruct (String.eqb c "." || String.eqb c "..") eqn:Hdots; [discriminate|].
  destruct (length named <? length comps)%nat eqn:Hlen; [discriminate|].
  destruct (NAME_MAX <? fsencode_len c)%N eqn:Hshort; [discriminate|].
  intros Hp.
  assert (Hnot : node_at (fs w) p ≠ Some Dir).
  { destruct (node_at (fs w) (d ++ [c])) as [[?|]|] eqn:Hc;
      try discriminate; injection Hp as <-; congruence. }
  assert (p = d ++ [c]) as Hpc.
  { destruct (node_at (fs w) (d ++ [c])) as [[?|]|]; congruence. }
  assert (Hcomps : comps = removelast named ++ [c]).
  { rewrite <- Hnamed in Hlen. apply trim_end_same in Hlen.
    rewrite <- Hlen, Hnamed. apply app_removelast_last. done. }
  assert (Hc : c ≠ EmptyString).
  { unfold c. rewrite <- Hnamed. apply trim_end_last. by rewrite Hnamed. }
  apply orb_false_elim in Hdots as [Hdot Hdotdot].
  change (start (put w p data) name) with (start w name).
  cbn [fs put]. rewrite Hcomps, walk_app.
  rewrite (walk_insert_file _ _ _ _ _ _ Hnot Hwalk).
  cbn [walk]. unfold enter.
  assert (d ≠ p) by congruence.
  rewrite node_at_insert_ne, Hd by assumption.
  apply String.eqb_neq in Hc. rewrite Hc, Hdot, Hdotdot, Hshort. cbn [orb].
  rewrite <- Hpc, !node_at_insert_eq; [reflexivity| |];
    rewrite Hpc; by destruct d.
Qed.

End FileSystem.

(** ** Strings *)

Lemma append_cons c (s t : string) : String c s +:+ t = String c (s +:+ t).
Proof. reflexivity. Qed.

Lemma append_assoc (s t u : string) : (s +:+ t) +:+ u = s +:+ t +:+ u.
Proof.
  induction s as [|c s IH]; [reflexivity|].
  by rewrite !append_cons, IH.
Qed.

Lemma lstrip_spec s :
  ∃ l, s = l +:+ pystr.lstrip s ∧ all_chars pystr.isspace l = true.
Proof.
  induction s as [|c s (l & Hs & Hl)]; [by exists EmptyString|].
  cbn [pystr.lstrip]. destruct (pystr.isspace c) eqn:Hc.
  - exists (String c l). rewrite append_cons, <- Hs. cbn [all_chars].
    by rewrite Hc, Hl.
  - by exists EmptyString.
Qed.

Lemma lstrip_head s c :
  head_char (pystr.lstrip s) = Some c → pystr.isspace c = false.
Proof.
  induction s as [|d s IH]; [discriminate|].
  cbn [pystr.lstrip]. destruct (pystr.isspace d) eqn:Hd; [exact IH|].
  cbn. congruence.
Qed.

Lemma rstrip_spec s :
  ∃ r, s = pystr.rstrip s +:+ r ∧ all_chars pystr.isspace r = true.
Proof.
  induction s as [|c s (r & Hs & Hr)]; [by exists EmptyString|].
  cbn [pystr.rstrip]. destruct (pystr.rstrip s) as [|d t] eqn:Ht.
  - destruct (pystr.isspace c) eqn:Hc.
    + exists (String c r). cbn [all_chars]. rewrite Hc, Hr.
      split; [|reflexivity]. by rewrite Hs.
    + exists r. split; [|exact Hr]. by rewrite Hs.
  - exists r. split; [|exact Hr]. by rewrite append_cons, <- Hs.
Qed.

Lemma rstrip_last s c :
  last_char (pystr.rstrip s) = Some c → pystr.isspace c = false.
Proof.
  induction s as [|d s IH]; [discriminate|].
  cbn [pystr.rstrip]. destruct (pystr.rstrip s) as [|e t] eqn:Ht.
  - destruct (pystr.isspace d) eqn:Hd; [discriminate|].
    cbn. congruence.
  - exact IH.
Qed.

Lemma rstrip_head s c :
  head_char (pystr.rstrip s) = Some c → head_char s = Some c.
Proof.
  destruct s as [|d s]; [discriminate|].
  cbn [pystr.rstrip]. destruct (pystr.rstrip s).
  - by destruct (pystr.isspace d).
  - trivial.
Qed.

(** [strip] removes whitespace at both ends, all of it, and nothing
    else. *)
Lemma strip_spec s :
  ∃ l r, s = l +:+ pystr.strip s +:+ r
         ∧ all_chars pystr.isspace l = true
         ∧ all_chars pystr.isspace r = true
         ∧ (∀ c, head_char (pystr.strip s) = Some c → pystr.isspace c = false)
         ∧ (∀ c, last_char (pystr.strip s) = Some c → pystr.isspace c = false).
Proof.
  destruct (lstrip_spec s) as (l & Hs & Hl).
  destruct (rstrip_spec (pystr.lstrip s)) as (r & Ht & Hr).
  exists l, r. unfold pystr.strip. repeat split; try assumption.
  - by rewrite <- Ht.
  - intros c Hc. apply (lstrip_head s), rstrip_head, Hc.
  - apply rstrip_last.
Qed.

(** ** Paths: what pathlib drops does not change where a path leads *)

Section Normalisation.

Import os pathlib.

Implicit Types (m : gmap (list string) node) (cur d p : list string).

Lemma split_not_nil sep s : pystr.split sep s ≠ [].
Proof.
  destruct s as [|c s]; cbn [pystr.split]; [done|].
  destruct (Ascii.eqb c sep); [done|]. by destruct (pystr.split sep s).
Qed.

Lemma split_without_sep sep s :
  pystr.contains sep s = false → pystr.split sep s = [s].
Proof.
  induction s as [|c s IH]; cbn [pystr.contains pystr.split]; [done|].
  intros [Hc Hs]%orb_false_elim.
  rewrite Ascii.eqb_sym, Hc, (IH Hs). reflexivity.
Qed.

Lemma split_at_sep sep s t :
  pystr.contains sep s = false →
  pystr.split sep (s +:+ String sep t) = s :: pystr.split sep t.
Proof.
  induction s as [|c s IH]; cbn [pystr.contains]; intros Hs.
  - change (EmptyString +:+ String sep t) with (String sep t).
    cbn [pystr.split]. by rewrite Ascii.eqb_refl.
  - apply orb_false_elim in Hs as [Hc Hs].
    rewrite append_cons. cbn [pystr.split].
    rewrite Ascii.eqb_sym, Hc, (IH Hs). reflexivity.
Qed.

Lemma split_parts_without_sep sep s :
  Forall (λ x, pystr.contains sep x = false) (pystr.split sep s).
Proof.
  induction s as [|c s IH]; cbn [pystr.split].
  - by repeat constructor.
  - destruct (Ascii.eqb c sep) eqn:Hc; [by constructor|].
    destruct (pystr.split sep s) as [|x xs].
    { repeat constructor. cbn [pystr.contains]. by rewrite Ascii.eqb_sym, Hc. }
    inversion IH as [|? ? Hx Hxs]; subst. constructor; [|exact Hxs].
    cbn [pystr.contains]. by rewrite Ascii.eqb_sym, Hc, Hx.
Qed.

Lemma split_join (parts : list string) :
  parts ≠ [] →
  Forall (λ x, pystr.contains "/" x = false) parts →
  pystr.split "/" (pystr.join "/" parts) = parts.
Proof.
  induction parts as [|x [|y ys] IH]; intros Hne Hall; [done| |].
  - cbn [pystr.join]. apply split_without_sep. by inversion Hall.
  - inversion Hall as [|? ? Hx Hrest]; subst.
    change (pystr.join "/" (x :: y :: ys))
      with (x +:+ String "/" (pystr.join "/" (y :: ys))).
    rewrite (split_at_sep _ _ _ Hx), IH; done.
Qed.

Lemma split_slash t :
  pystr.split "/" (String "/" t) = EmptyString :: pystr.split "/" t.
Proof. reflexivity. Qed.

Lemma start_absolute w t : start w (String "/" t) = [].
Proof.
  unfold start, pystr.startswith. cbn [String.prefix].
  destruct (ascii_dec "/" "/"); [by destruct t | done].
Qed.

Lemma startswith_slash s :
  pystr.startswith "/" s = true → ∃ t, s = String "/" t.
Proof.
  unfold pystr.startswith. destruct s as [|a s]; [done|]. cbn [String.prefix].
  destruct (ascii_dec "/" a) as [<-|]; [eauto | done].
Qed.

Lemma startswith_slash_cons t : pystr.startswith "/" (String "/" t) = true.
Proof.
  unfold pystr.startswith. cbn [String.prefix].
  destruct (ascii_dec "/" "/"); [by destruct t | done].
Qed.

(** *** Walking *)

Lemma resolve_nil m cur :
  resolve m cur []
  = match node_at m cur with None => inl ENOENT | Some n => inr (cur, n) end.
Proof. reflexivity. Qed.

Lemma resolve_cons m cur c cs :
  resolve m cur (c :: cs)
  = match enter m cur c with
    | inl e => inl e
    | inr cur' => resolve m cur' cs
    end.
Proof. unfold resolve. cbn [walk]. by destruct (enter m cur c). Qed.

Lemma enter_not_part m cur c :
  is_part c = false →
  enter m cur c
  = match node_at m cur with
    | None => inl ENOENT
    | Some (File _) => inl ENOTDIR
    | Some Dir => inr cur
    end.
Proof.
  unfold is_part, enter. intros Hc.
  destruct (node_at m cur) as [[?|]|]; try reflexivity.
  destruct (String.eqb c EmptyString); [reflexivity|].
  destruct (String.eqb c "."); [reflexivity | discriminate].
Qed.

Lemma resolve_from_file m cur data comps :
  node_at m cur = Some (File data) →
  resolve m cur comps = inl ENOTDIR
  ∨ (comps = [] ∧ resolve m cur comps = inr (cur, File data)).
Proof.
  intros Hcur. destruct comps as [|c cs].
  - right. by rewrite resolve_nil, Hcur.
  - left. rewrite resolve_cons. unfold enter. by rewrite Hcur.
Qed.

Lemma resolve_from_none m cur comps :
  node_at m cur = None → resolve m cur comps = inl ENOENT.
Proof.
  intros Hcur. destruct comps as [|c cs].
  - by rewrite resolve_nil, Hcur.
  - rewrite resolve_cons. unfold enter. by rewrite Hcur.
Qed.

(** Empty and "." components lead nowhere: without them the answer is
    the same, but for a file, which they turn into "not a directory". *)
Lemma resolve_filter m comps : ∀ cur,
  same_answer (resolve m cur comps) (resolve m cur (List.filter is_part comps)).
Proof.
  induction comps as [|c cs IH]; intros cur; cbn [List.filter]; [by left|].
  destruct (is_part c) eqn:Hc.
  - rewrite !resolve_cons. destruct (enter m cur c); [by left | apply IH].
  - rewrite resolve_cons, (enter_not_part _ _ _ Hc).
    destruct (node_at m cur) as [[data|]|] eqn:Hcur.
    + destruct (resolve_from_file _ _ data (List.filter is_part cs) Hcur)
        as [->|[_ ->]]; [by left|].
      right. eauto.
    + apply IH.
    + left. by apply resolve_from_none.
Qed.

(** Components that are all empty or "." lead where one "." leads. *)
Lemma resolve_dots m cur comps :
  comps ≠ [] → List.filter is_part comps = [] →
  resolve m cur comps = resolve m cur ["."].
Proof.
  intros Hne. rewrite (resolve_cons _ _ "."), (enter_not_part _ _ ".") by done.
  revert Hne. induction comps as [|c cs IH]; [done|]. intros _.
  cbn [List.filter]. destruct (is_part c) eqn:Hc; [discriminate|].
  intros Hcs. rewrite resolve_cons, (enter_not_part _ _ _ Hc).
  destruct (node_at m cur) as [[data|]|] eqn:Hcur; try reflexivity.
  destruct cs as [|c' cs']; [by rewrite resolve_nil, Hcur|].
  rewrite (IH ltac:(done) Hcs). by rewrite ?Hcur.
Qed.


(** *** Bytes *)

Lemma fsencode_len_app s t :
  fsencode_len (s +:+ t) = (fsencode_len s + fsencode_len t)%N.
Proof.
  induction s as [|c s IH]; [reflexivity|].
  rewrite append_cons. cbn [fsencode_len]. rewrite IH. lia.
Qed.

Lemma fsencode_len_pos c s : (1 <= fsencode_len (String c s))%N.
Proof.
  cbn [fsencode_len]. unfold char_bytes.
  destruct (N_of_ascii c <? 128)%N; lia.
Qed.

Lemma weight_split s : weight (pystr.split "/" s) = (fsencode_len s + 1)%N.
Proof.
  induction s as [|c s IH]; [reflexivity|].
  cbn [pystr.split]. destruct (Ascii.eqb_spec c "/") as [->|Hc].
  - cbn [weight fsencode_len]. rewrite IH.
    change (char_bytes "/") with 1%N. lia.
  - destruct (pystr.split "/" s) as [|x xs] eqn:Hs.
    { by apply split_not_nil in Hs. }
    cbn [weight fsencode_len] in *. lia.
Qed.

Lemma weight_filter (f : string → bool) comps :
  (weight (List.filter f comps) <= weight comps)%N.
Proof.
  induction comps as [|c cs IH]; cbn [List.filter weight]; [lia|].
  destruct (f c); cbn [weight]; lia.
Qed.


Lemma weight_join comps :
  comps ≠ [] → (fsencode_len (pystr.join "/" comps) + 1 = weight comps)%N.
Proof.
  induction comps as [|x [|y ys] IH]; intros Hne; [done| |].
  - cbn [pystr.join weight]. lia.
  - change (pystr.join "/" (x :: y :: ys))
      with (x +:+ "/" +:+ pystr.join "/" (y :: ys)).
    rewrite !fsencode_len_app. change (fsencode_len "/") with 1%N.
    change (weight (x :: y :: ys))
      with (fsencode_len x + 1 + weight (y :: ys))%N.
    rewrite <- IH by done. lia.
Qed.

(** *** Zero bytes *)

Lemma has_nul_cons c s :
  has_nul (String c s) = Ascii.eqb Ascii.zero c || has_nul s.
Proof. reflexivity. Qed.

Lemma has_nul_app s t : has_nul (s +:+ t) = has_nul s || has_nul t.
Proof.
  induction s as [|c s IH]; [reflexivity|].
  rewrite append_cons, !has_nul_cons, IH. by rewrite orb_assoc.
Qed.

Lemma has_nul_split s : existsb has_nul (pystr.split "/" s) = has_nul s.
Proof.
  induction s as [|c s IH]; [reflexivity|].
  cbn [pystr.split]. rewrite has_nul_cons, <- IH.
  destruct (Ascii.eqb_spec c "/") as [->|Hc]; [reflexivity|].
  destruct (pystr.split "/" s) as [|x xs]; cbn [existsb].
  - rewrite has_nul_cons. by rewrite orb_false_r.
  - rewrite has_nul_cons. by rewrite orb_assoc.
Qed.

Lemma has_nul_join comps :
  has_nul (pystr.join "/" comps) = existsb has_nul comps.
Proof.
  induction comps as [|x [|y ys] IH]; [reflexivity| |].
  - cbn [pystr.join existsb]. by rewrite orb_false_r.
  - change (pystr.join "/" (x :: y :: ys))
      with (x +:+ "/" +:+ pystr.join "/" (y :: ys)).
    rewrite !has_nul_app, IH. reflexivity.
Qed.

Lemma has_nul_parts comps :
  existsb has_nul (List.filter is_part comps) = existsb has_nul comps.
Proof.
  induction comps as [|c cs IH]; [reflexivity|].
  cbn [List.filter existsb]. destruct (is_part c) eqn:Hc.
  - cbn [existsb]. by rewrite IH.
  - rewrite IH. assert (has_nul c = false) as ->; [|reflexivity].
    revert Hc. unfold is_part.
    destruct (String.eqb_spec c EmptyString) as [->|_]; [done|].
    destruct (String.eqb_spec c ".") as [->|_]; done.
Qed.

(** *** Path objects *)

Lemma filter_is_part_without_sep s :
  Forall (λ x, pystr.contains "/" x = false)
    (List.filter is_part (pystr.split "/" s)).
Proof.
  pose proof (split_parts_without_sep "/" s) as H.
  induction H as [|x xs Hx _ IH]; cbn [List.filter]; [constructor|].
  destruct (is_part x); [by constructor | exact IH].
Qed.

Lemma filter_is_part_all (comps : list string) :
  Forall (λ x, is_part x = true) (List.filter is_part comps).
Proof.
  induction comps as [|c cs IH]; cbn [List.filter]; [constructor|].
  destruct (is_part c) eqn:Hc; [by constructor | exact IH].
Qed.

(** The three roots a parsed path can have. *)
Lemma parse_cases s :
  (pystr.startswith "/" s = false ∧ anchor (parse s) = EmptyString)
  ∨ (∃ t, s = String "/" t ∧ anchor (parse s) = "/")
  ∨ (∃ t, s = String "/" (String "/" t) ∧ anchor (parse s) = "//").
Proof.
  unfold parse; cbn [anchor].
  destruct (pystr.startswith "/" s) eqn:Hone.
  - right. destruct (startswith_slash _ Hone) as [t ->].
    destruct (pystr.startswith "//" (String "/" t)) eqn:Htwo; cbn [andb].
    + assert (∃ u, t = String "/" u) as [u ->].
      { revert Htwo. unfold pystr.startswith. cbn [String.prefix].
        destruct (ascii_dec "/" "/"); [|done]. apply startswith_slash. }
      destruct (negb _); [right | left]; eauto.
    + left. eauto.
  - left. split; [reflexivity|].
    assert (Htwo : pystr.startswith "//" s = false).
    { revert Hone. unfold pystr.startswith.
      destruct s as [|a s]; [done|]. cbn [String.prefix].
      destruct (ascii_dec "/" a); [|done]. by destruct s. }
    by rewrite Htwo.
Qed.

Lemma parse_well_formed s : well_formed (parse s).
Proof.
  split; [|split].
  - destruct (parse_cases s) as [[_ ->]|[(t & _ & ->)|(t & _ & ->)]]; auto.
  - apply filter_is_part_all.
  - apply filter_is_part_without_sep.
Qed.


Lemma join_not_empty (ps : list string) :
  ps ≠ [] → Forall (λ x, is_part x = true) ps →
  pystr.join "/" ps ≠ EmptyString.
Proof.
  destruct ps as [|x xs]; [done|]. intros _ Hall.
  inversion Hall as [|? ? Hx _]; subst.
  destruct x as [|c x]; [discriminate Hx|].
  destruct xs as [|y ys]; cbn [pystr.join]; [done|]. by rewrite append_cons.
Qed.

Lemma relative_join_start w (ps : list string) :
  ps ≠ [] →
  Forall (λ x, is_part x = true) ps →
  Forall (λ x, pystr.contains "/" x = false) ps →
  start w (pystr.join "/" ps) = cwd w.
Proof.
  intros Hne Hpart Hsep. unfold start, pystr.startswith.
  destruct ps as [|x xs]; [done|].
  inversion Hpart as [|? ? Hx _]; inversion Hsep as [|? ? Hsx _]; subst.
  destruct x as [|c x]; [discriminate Hx|].
  assert (Hjoin : ∃ t, pystr.join "/" (String c x :: xs) = String c t).
  { destruct xs as [|y ys]; cbn [pystr.join]; [by eexists|].
    rewrite append_cons. by eexists. }
  destruct Hjoin as [t ->]. cbn [pystr.contains] in Hsx.
  apply orb_false_elim in Hsx as [Hc _].
  cbn [String.prefix]. destruct (ascii_dec "/" c) as [<-|]; [|done].
  by rewrite Ascii.eqb_refl in Hc.
Qed.

(** The string of a path object leads where its parts lead. *)
Lemma stat_to_str w x :
  well_formed x →
  stat w (to_str x)
  = if (PATH_MAX <=? fsencode_len (to_str x))%N then inl ENAMETOOLONG
    else resolve (fs w) (start_of w x) (comps_of x).
Proof.
  intros (Hanchor & Hparts & Hsep). unfold stat.
  destruct (PATH_MAX <=? fsencode_len (to_str x))%N; [reflexivity|].
  destruct x as [a ps]. unfold to_str, start_of, comps_of in *. cbn [anchor parts] in *.
  destruct Hanchor as [->|[->| ->]].
  - destruct ps as [|y ys]; [reflexivity|].
    change (EmptyString +:+ ?t) with t.
    pose proof (join_not_empty (y :: ys) ltac:(done) Hparts) as Hne.
    rewrite relative_join_start, split_join by done.
    by destruct (pystr.join "/" (y :: ys)).
  - change ("/" +:+ ?t) with (String "/" t).
    rewrite start_absolute, split_slash, resolve_cons. cbn [pystr.truthy].
    change (enter (fs w) [] EmptyString) with (@inr errno _ (@nil string)).
    cbv beta iota.
    destruct ps as [|y ys]; [reflexivity|]. by rewrite split_join.
  - change ("//" +:+ ?t) with (String "/" (String "/" t)).
    rewrite start_absolute, !split_slash, !resolve_cons. cbn [pystr.truthy].
    change (enter (fs w) [] EmptyString) with (@inr errno _ (@nil string)).
    cbv beta iota.
    destruct ps as [|y ys]; [reflexivity|]. by rewrite split_join.
Qed.

(** The bytes of the string of a path object. *)
Lemma to_str_len x :
  fsencode_len (to_str x)
  = match parts x with
    | [] => match anchor x with
            | EmptyString => 1
            | a => fsencode_len a
            end
    | ps => fsencode_len (anchor x) + weight ps - 1
    end%N.
Proof.
  destruct x as [a ps]. unfold to_str. cbn [anchor parts].
  destruct ps as [|y ys].
  - destruct a as [|c a]; [reflexivity|].
    rewrite fsencode_len_app. cbn [pystr.join fsencode_len]. lia.
  - assert (fsencode_len (a +:+ pystr.join "/" (y :: ys))
            = fsencode_len a + weight (y :: ys) - 1)%N as Hlen.
    { rewrite fsencode_len_app, <- (weight_join (y :: ys)) by done. lia. }
    by destruct a.
Qed.

(** What [Path] keeps of a string is no longer than the string. *)
Lemma parse_weight s :
  (fsencode_len (anchor (parse s)) + weight (parts (parse s))
   <= fsencode_len s + 1)%N
  ∧ (fsencode_len (anchor (parse s)) <= fsencode_len s)%N.
Proof.
  change (parts (parse s)) with (List.filter is_part (pystr.split "/" s)).
  destruct (parse_cases s) as [[_ ->]|[(t & -> & ->)|(t & -> & ->)]].
  - pose proof (weight_filter is_part (pystr.split "/" s)).
    rewrite weight_split in *. cbn [fsencode_len]. lia.
  - rewrite split_slash. cbn [List.filter is_part String.eqb negb andb].
    pose proof (weight_filter is_part (pystr.split "/" t)).
    rewrite weight_split in *. cbn [fsencode_len].
    change (char_bytes "/") with 1%N. lia.
  - rewrite !split_slash. cbn [List.filter is_part String.eqb negb andb].
    pose proof (weight_filter is_part (pystr.split "/" t)).
    rewrite weight_split in *. cbn [fsencode_len].
    change (char_bytes "/") with 1%N. lia.
Qed.

Lemma to_str_parse_len s :
  s ≠ EmptyString →
  (fsencode_len (to_str (parse s)) <= fsencode_len s)%N.
Proof.
  intros Hs. rewrite to_str_len.
  destruct (parse_weight s) as [Hweight Hanchor].
  destruct (parts (parse s)) as [|y ys].
  - destruct (anchor (parse s)); [|assumption].
    destruct s as [|c s]; [done|]. apply fsencode_len_pos.
  - lia.
Qed.


Lemma has_nul_to_str_parse s : has_nul (to_str (parse s)) = has_nul s.
Proof.
  rewrite <- (has_nul_split s), <- has_nul_parts.
  change (List.filter is_part (pystr.split "/" s)) with (parts (parse s)).
  unfold to_str.
  assert (has_nul (anchor (parse s) +:+ pystr.join "/" (parts (parse s)))
          = existsb has_nul (parts (parse s))) as Hgen.
  { rewrite has_nul_app, has_nul_join.
    by destruct (parse_cases s) as [[_ ->]|[(t & _ & ->)|(t & _ & ->)]]. }
  destruct (anchor (parse s)) eqn:Ha; [|exact Hgen].
  destruct (parts (parse s)); [reflexivity | exact Hgen].
Qed.

Lemma start_of_parse w s : start_of w (parse s) = start w s.
Proof.
  unfold start_of, start.
  destruct (parse_cases s) as [[-> ->]|[(t & -> & ->)|(t & -> & ->)]];
    [reflexivity| |]; by rewrite startswith_slash_cons.
Qed.

(** What the system answers for a string, pathlib gets for the parsed
    path, but for the name of a file with a slash or a dot after it. *)
Lemma stat_parse w s :
  s ≠ EmptyString → (fsencode_len s < PATH_MAX)%N →
  same_answer (stat w s) (stat w (to_str (parse s))).
Proof.
  intros Hs Hlen.
  rewrite (stat_to_str _ _ (parse_well_formed s)), start_of_parse.
  pose proof (to_str_parse_len s Hs) as Hnorm.
  destruct (N.leb_spec PATH_MAX (fsencode_len (to_str (parse s)))); [lia|].
  unfold stat. destruct (N.leb_spec PATH_MAX (fsencode_len s)); [lia|].
  destruct s as [|a s']; [done|]. set (s := String a s') in *.
  unfold comps_of.
  change (parts (parse s)) with (List.filter is_part (pystr.split "/" s)).
  destruct (anchor (parse s)) eqn:Ha;
    [destruct (List.filter is_part (pystr.split "/" s)) eqn:Hps|];
    try apply resolve_filter.
  - left. symmetry. apply resolve_dots; [apply split_not_nil | exact Hps].
  - rewrite <- Hps. apply resolve_filter.
Qed.

(** Whatever [open] finds under a path string, pathlib finds under the
    parsed path. *)
Lemma stat_normalised w s p n :
  stat w s = inr (p, n) → stat w (to_str (parse s)) = inr (p, n).
Proof.
  intros Hstat.
  assert (s ≠ EmptyString ∧ (fsencode_len s < PATH_MAX)%N) as [Hs Hlen].
  { revert Hstat. unfold stat.
    destruct (N.leb_spec PATH_MAX (fsencode_len s)); [discriminate|].
    by destruct s. }
  destruct (stat_parse w s Hs Hlen) as [->|[Hraw _]]; congruence.
Qed.

End Normalisation.

(** ** The tests of pathlib and the answers of the system *)

Section Tests.

Import os pathlib.

Implicit Types (m : gmap (list string) node) (cur d p f : list string)
  (x : PurePath).

Lemma stat_within w s e :
  stat w s = inl e → e ≠ ENAMETOOLONG → (fsencode_len s < PATH_MAX)%N.
Proof.
  unfold stat. destruct (N.leb_spec PATH_MAX (fsencode_len s)); [|done].
  by intros [= <-].
Qed.

(** A path that leads somewhere passes the test for what is there. *)
Lemma stat_or_false_found w s q n :
  has_nul s = false → stat w s = inr (q, n) →
  stat_or_false w (parse s) = Ok (Some n).
Proof.
  intros Hnul Hstat. unfold stat_or_false.
  by rewrite has_nul_to_str_parse, Hnul, (stat_normalised _ _ _ _ Hstat).
Qed.



Lemma is_file_exists w s q data :
  has_nul s = false → stat w s = inr (q, File data) →
  is_file w (parse s) = Ok true.
Proof.
  intros Hnul Hstat. unfold is_file.
  by rewrite (stat_or_false_found _ _ _ _ Hnul Hstat).
Qed.


Lemma is_file_missing w s :
  s ≠ EmptyString → stat w s = inl ENOENT → is_file w (parse s) = Ok false.
Proof.
  intros Hs Hstat. unfold is_file, stat_or_false.
  destruct (has_nul (to_str (parse s))); [done|].
  destruct (stat_parse w s Hs (stat_within _ _ _ Hstat ltac:(done)))
    as [->|[Hraw _]]; [by rewrite Hstat | congruence].
Qed.


Lemma is_file_nul w x : has_nul (to_str x) = true → is_file w x = Ok false.
Proof. unfold is_file, stat_or_false. by intros ->. Qed.

(** A file that passes the test for a file has no zero byte in its
    name. *)
Lemma is_file_no_nul w s :
  is_file w (parse s) = Ok true → has_nul s = false.
Proof.
  destruct (has_nul s) eqn:Hnul; [|done].
  rewrite is_file_nul; [done | by rewrite has_nul_to_str_parse].
Qed.

(** What the tests raise is the [OSError] of [stat]. *)
Lemma stat_or_false_error w x e :
  stat_or_false w x = Err e →
  ∃ no, stat w (to_str x) = inl no ∧ ignored no = false
        ∧ e = error no (to_str x).
Proof.
  unfold stat_or_false. destruct (has_nul (to_str x)); [done|].
  destruct (stat w (to_str x)) as [no|[q n]]; [|done].
  destruct (ignored no) eqn:Hno; [done|]. intros [= <-]. eauto.
Qed.


Lemma is_file_error w x e :
  is_file w x = Err e → stat_or_false w x = Err e.
Proof.
  unfold is_file. destruct (stat_or_false w x) as [[[?|]|]|]; try done.
  by intros [= ->].
Qed.




End Tests.

(** ** The file system: creating a file and what it leaves alone *)

Section Creation.

Import os pathlib.

Implicit Types (m : gmap (list string) node) (cur d p f : list string)
  (x : PurePath).

Lemma trim_end_snoc (comps : list string) c :
  c ≠ EmptyString → trim_end (comps ++ [c]) = comps ++ [c].
Proof.
  intros Hc. induction comps as [|y ys IH]; cbn [app trim_end].
  - by destruct (String.eqb_spec c EmptyString).
  - rewrite IH. by destruct ys.
Qed.

(** What a successful [creat] has checked. *)
Lemma creat_inv w path p :
  creat w path = inr p →
  path ≠ EmptyString
  ∧ (fsencode_len path < PATH_MAX)%N
  ∧ ∃ dirs d c,
      pystr.split "/" path = dirs ++ [c]
      ∧ walk (fs w) (start w path) dirs = inr d
      ∧ node_at (fs w) d = Some Dir
      ∧ c ≠ EmptyString
      ∧ String.eqb c "." = false
      ∧ String.eqb c ".." = false
      ∧ short c = true
      ∧ p = d ++ [c]
      ∧ node_at (fs w) p ≠ Some Dir.
Proof.
  unfold creat.
  destruct (N.leb_spec PATH_MAX (fsencode_len path)); [discriminate|].
  destruct path as [|a path']; [discriminate|].
  set (name := String a path') in *. set (comps := pystr.split "/" name).
  destruct (trim_end comps) as [|n0 ns] eqn:Hnamed; [discriminate|].
  set (named := n0 :: ns) in *.
  destruct (walk (fs w) (start w name) (removelast named)) as [e|d] eqn:Hwalk;
    [discriminate|].
  destruct (node_at (fs w) d) as [[?|]|] eqn:Hd; try discriminate.
  set (c := List.last named EmptyString).
  destruct (String.eqb c "." || String.eqb c "..") eqn:Hdots; [discriminate|].
  destruct (length named <? length comps)%nat eqn:Hlen; [discriminate|].
  destruct (N.ltb_spec NAME_MAX (fsencode_len c)); [discriminate|].
  intros Hp. split; [done|]. split; [done|].
  apply orb_false_elim in Hdots as [Hdot Hdotdot].
  exists (removelast named), d, c. repeat split; try assumption.
  - rewrite <- Hnamed in Hlen. apply trim_end_same in Hlen.
    rewrite <- Hlen, Hnamed. apply app_removelast_last. done.
  - unfold c. rewrite <- Hnamed. apply trim_end_last. by rewrite Hnamed.
  - unfold short. by apply N.leb_le.
  - destruct (node_at (fs w) (d ++ [c])) as [[?|]|]; congruence.
  - destruct (node_at (fs w) (d ++ [c])) as [[?|]|] eqn:Hc;
      try discriminate; injection Hp as <-; congruence.
Qed.

(** And those checks are all it takes. *)
Lemma creat_intro w path dirs d c :
  path ≠ EmptyString →
  (fsencode_len path < PATH_MAX)%N →
  pystr.split "/" path = dirs ++ [c] →
  walk (fs w) (start w path) dirs = inr d →
  node_at (fs w) d = Some Dir →
  c ≠ EmptyString →
  String.eqb c "." = false →
  String.eqb c ".." = false →
  short c = true →
  node_at (fs w) (d ++ [c]) ≠ Some Dir →
  creat w path = inr (d ++ [c]).
Proof.
  intros Hpath Hmax Hsplit Hwalk Hd Hc Hdot Hdotdot Hshort Hnot. unfold creat.
  destruct (N.leb_spec PATH_MAX (fsencode_len path)); [lia|].
  destruct path as [|a path']; [done|].
  rewrite Hsplit, (trim_end_snoc _ _ Hc).
  destruct (dirs ++ [c]) as [|y ys] eqn:Hsnoc; [by destruct dirs|].
  rewrite <- Hsnoc, removelast_last, last_last, Hwalk, Hd, Hdot, Hdotdot.
  cbn [orb]. rewrite Nat.ltb_irrefl.
  unfold short in Hshort. apply N.leb_le in Hshort.
  destruct (N.ltb_spec NAME_MAX (fsencode_len c)); [lia|].
  by destruct (node_at (fs w) (d ++ [c])) as [[?|]|].
Qed.

(** Opening the file a second time finds the same place. *)
Lemma creat_put w path p data :
  creat w path = inr p → creat (put w p data) path = inr p.
Proof.
  intros (Hpath & Hmax & dirs & d & c & Hsplit & Hwalk & Hd & Hc & Hdot
          & Hdotdot & Hshort & -> & Hnot)%creat_inv.
  assert (d ≠ d ++ [c]) by congruence.
  apply creat_intro with (dirs := dirs); try assumption.
  - apply walk_insert_file; assumption.
  - cbn [fs put]. by rewrite node_at_insert_ne.
  - cbn [fs put]. rewrite node_at_insert_eq; [done | by destruct d].
Qed.

Lemma creat_not_root w path p : creat w path = inr p → p ≠ [].
Proof.
  intros (_ & _ & dirs & d & c & _ & _ & _ & _ & _ & _ & _ & -> & _)%creat_inv.
  by destruct d.
Qed.

Lemma creat_not_dir w path p :
  creat w path = inr p → node_at (fs w) p ≠ Some Dir.
Proof.
  by intros (_ & _ & dirs & d & c & _ & _ & _ & _ & _ & _ & _ & -> & ?)%creat_inv.
Qed.

Lemma stat_node w s q n : stat w s = inr (q, n) → node_at (fs w) q = Some n.
Proof.
  unfold stat, resolve. destruct (_ <=? _)%N; [discriminate|].
  destruct s; [discriminate|].
  destruct (walk _ _ _); [discriminate|].
  destruct (node_at (fs w) _) eqn:Hq; [|discriminate]. by intros [= <- <-].
Qed.

(** Writing a file where no directory is changes no other answer of
    [stat]. *)
Lemma stat_put w s q n f data :
  f ≠ [] → node_at (fs w) f ≠ Some Dir →
  stat w s = inr (q, n) →
  stat (put w f data) s
  = inr (q, if decide (q = f) then File data else n).
Proof.
  intros Hf Hnot. unfold stat, resolve.
  destruct (_ <=? _)%N; [discriminate|].
  destruct s as [|a s']; [discriminate|].
  change (start (put w f data) (String a s')) with (start w (String a s')).
  destruct (walk (fs w) _ _) as [e|q'] eqn:Hwalk; [discriminate|].
  destruct (node_at (fs w) q') as [n'|] eqn:Hq; [|discriminate].
  intros [= <- <-]. cbn [fs put].
  rewrite (walk_insert_file _ _ _ _ _ _ Hnot Hwalk).
  destruct (decide (q' = f)) as [->|Hne].
  - by rewrite node_at_insert_eq.
  - by rewrite node_at_insert_ne, Hq.
Qed.

Lemma stat_or_false_put w x f data n :
  f ≠ [] → node_at (fs w) f ≠ Some Dir →
  stat_or_false w x = Ok (Some n) →
  ∃ n', stat_or_false (put w f data) x = Ok (Some n')
        ∧ (n = Dir → n' = Dir)
        ∧ (n ≠ Dir → n' ≠ Dir).
Proof.
  intros Hf Hnot. unfold stat_or_false.
  destruct (has_nul (to_str x)); [done|].
  destruct (stat w (to_str x)) as [e|[q n0]] eqn:Hstat;
    [by destruct (ignored e)|].
  intros [= ->]. rewrite (stat_put _ _ _ _ _ data Hf Hnot Hstat).
  eexists. split; [reflexivity|].
  destruct (decide (q = f)) as [->|]; [|done].
  apply stat_node in Hstat. split; [congruence | done].
Qed.

Lemma is_dir_put w x f data :
  f ≠ [] → node_at (fs w) f ≠ Some Dir →
  is_dir w x = Ok true → is_dir (put w f data) x = Ok true.
Proof.
  intros Hf Hnot. unfold is_dir.
  destruct (stat_or_false w x) as [[[?|]|]|] eqn:Hstat; try discriminate.
  intros _.
  destruct (stat_or_false_put _ _ _ data _ Hf Hnot Hstat) as (n' & -> & Hdir & _).
  by rewrite Hdir.
Qed.

Lemma is_file_put w x f data :
  f ≠ [] → node_at (fs w) f ≠ Some Dir →
  is_file w x = Ok true →
  is_file (put w f data) x = Ok true ∧ is_dir (put w f data) x = Ok false.
Proof.
  intros Hf Hnot. unfold is_file, is_dir.
  destruct (stat_or_false w x) as [[[?|]|]|] eqn:Hstat; try discriminate.
  intros _.
  destruct (stat_or_false_put _ _ _ data _ Hf Hnot Hstat) as (n' & -> & _ & Hfile).
  by destruct n' as [?|]; [|destruct Hfile].
Qed.

End Creation.

(** ** archive.py: construction *)

Section Construction.

Import archive pathlib.

Lemma os_error_is_OSError e name : isinstance (os.error e name) OSError = true.
Proof. by destruct e. Qed.







(** One turn of the loop of [_set_items] asks the question once. *)
Lemma _set_items_body_resolves w root items item :
  _set_items_body w root items item
  = match resolves w root item with
    | Err e => Err e
    | Ok true => Ok (items ++ [item])
    | Ok false => Ok items
    end.
Proof.
  unfold _set_items_body, resolves. cbn [Path].
  by destruct (is_valid_item w (PStr item)) as [[|]|].
Qed.

Lemma _set_items_filter w root candidates : ∀ items0,
  _set_items w root items0 candidates
  = match first_raise w root candidates with
    | Some (_, e) => Err e
    | None => Ok (items0 ++ List.filter (kept w root) candidates)
    end.
Proof.
  induction candidates as [|c cs IH]; intros items0;
    cbn [_set_items first_raise List.filter].
  - by rewrite app_nil_r.
  - rewrite _set_items_body_resolves. unfold kept at 1.
    destruct (resolves w root c) as [[|]|e]; [| |reflexivity]; rewrite IH;
      destruct (first_raise w root cs) as [[? ?]|]; try reflexivity.
    by rewrite <- app_assoc.
Qed.


Lemma _set_name_base name : _set_name name = base_name_of name.
Proof.
  unfold _set_name, base_name_of.
  destruct (pystr.strip name) eqn:E; cbn [pystr.truthy negb].
  - reflexivity.
  - exact E.
Qed.

(** The constructor, step by step. *)
Lemma init_cases w froot fitems base packed :
  __init__ w froot fitems base packed
  = match is_dir w (parse froot) with
    | Err e => Err e
    | Ok false =>
        Err (Raise ArchiveException "'root directory' provided is not valid.")
    | Ok true =>
        match first_raise w froot fitems with
        | Some (_, e) => Err e
        | None =>
            Ok {| __root := froot;
                  __items := List.filter (kept w froot) fitems;
                  __base_name := base_name_of base;
                  __packed := packed;
                  __timestamp := pytime.strftime (now w) |}
        end
    end.
Proof.
  unfold __init__, _set_root, is_valid_dir. cbn [Path].
  destruct (is_dir w (parse froot)) as [[|]|]; try reflexivity.
  rewrite _set_items_filter, _set_name_base.
  by destruct (first_raise w froot fitems) as [[? ?]|].
Qed.

(** What a constructed object holds. *)
Lemma init_inv w froot fitems base packed a :
  __init__ w froot fitems base packed = Ok a →
  is_dir w (parse froot) = Ok true
  ∧ first_raise w froot fitems = None
  ∧ a = {| __root := froot;
           __items := List.filter (kept w froot) fitems;
           __base_name := base_name_of base;
           __packed := packed;
           __timestamp := pytime.strftime (now w) |}.
Proof.
  rewrite init_cases.
  destruct (is_dir w (parse froot)) as [[|]|]; try discriminate.
  destruct (first_raise w froot fitems) as [[? ?]|]; [discriminate|].
  by intros [= <-].
Qed.

(** The items of a new object are the candidates that resolve. *)
Lemma init_items w froot fitems base packed a :
  __init__ w froot fitems base packed = Ok a →
  __items a = List.filter (kept w froot) fitems.
Proof. by intros (_ & _ & ->)%init_inv. Qed.


(** C7. The output name of an object is its base name, a dash, the
    timestamp taken at construction and the extension for the flag,
    where the base name is the argument trimmed, or "Archive" when that
    is empty; the names for the two flags share everything before the
    extension; and a blank argument gives the names that the argument
    "Archive" gives under the same clock. *)
Theorem output_name (w : World) (froot : string) (fitems : list string)
  (base : string) (packed : bool) (a : Archive) (flag : bool) :
  __init__ w froot fitems base packed = Ok a →
  get_name a flag
  = base_name_of base +:+ "-" +:+ pytime.strftime (now w) +:+ extension_of flag
  ∧ (∃ stem, get_name a true = stem +:+ ".tgz"
             ∧ get_name a false = stem +:+ ".tar")
  ∧ (∀ froot' fitems' packed' a',
       base = "   " →
       __init__ w froot' fitems' "Archive" packed' = Ok a' →
       get_name a flag = get_name a' flag).
Proof.
  intros (_ & _ & ->)%init_inv.
  unfold get_name; cbn [__base_name __timestamp].
  split; [reflexivity|]. split.
  - exists (base_name_of base +:+ "-" +:+ pytime.strftime (now w)).
    rewrite <- !append_assoc. split; reflexivity.
  - intros froot' fitems' packed' a' -> (_ & _ & ->)%init_inv.
    reflexivity.
Qed.

End Construction.

(** ** archive.py: packing and hashing *)

Section Packing.

Import archive pathlib.

Variable tarfile_reads : World → PurePath → string → option exn.
Variable tarfile_bytes : World → list tarfile.member → bool → list byte.

(** What [open] for writing has done when it returns. *)
Lemma open_write_inv w name f w1 :
  builtins.open_write w name = Ok (f, w1) →
  os.has_nul name = false ∧ os.creat w name = inr f ∧ w1 = os.put w f [].
Proof.
  unfold builtins.open_write. destruct (os.has_nul name); [done|].
  destruct (os.creat w name); [done|]. by intros [= <- <-].
Qed.

Lemma open_write_intro w name f :
  os.has_nul name = false → os.creat w name = inr f →
  builtins.open_write w name = Ok (f, os.put w f []).
Proof. unfold builtins.open_write. by intros -> ->. Qed.

(** What [open] raises: the [OSError] of the system, or [ValueError]
    for a name with a zero byte. *)
Lemma open_write_error w name e :
  builtins.open_write w name = Err e →
  isinstance e OSError = true
  ∨ (os.has_nul name = true ∧ e = os.embedded_null).
Proof.
  unfold builtins.open_write. destruct (os.has_nul name); [intros [= <-]; auto|].
  destruct (os.creat w name); [|done]. intros [= <-]. left.
  apply os_error_is_OSError.
Qed.

Lemma open_read_error w name e :
  builtins.open_read w name = Err e →
  isinstance e OSError = true
  ∨ (os.has_nul name = true ∧ e = os.embedded_null).
Proof.
  unfold builtins.open_read. destruct (os.has_nul name); [intros [= <-]; auto|].
  destruct (os.stat w name) as [no|[q [?|]]]; [| done |]; intros [= <-]; left;
    apply os_error_is_OSError.
Qed.

(** A file just written can be read under the same name. *)
Lemma open_read_after_creat w name f data :
  os.has_nul name = false → os.creat w name = inr f →
  builtins.open_read (os.put w f data) name = Ok data.
Proof.
  intros Hnul Hf. unfold builtins.open_read.
  by rewrite Hnul, (stat_after_creat _ _ _ data Hf).
Qed.

(** An item that does not resolve under the root stops the loop of
    [pack] with the [TypeError] of [tar.add]. *)
Lemma pack_loop_unresolved w self_name root tar item rest :
  join_path w root item = Ok None →
  pack_loop tarfile_reads w self_name root tar (item :: rest)
  = (tar, Some (Raise TypeError
                  "expected str, bytes or os.PathLike object, not NoneType")).
Proof. cbn [pack_loop]. by intros ->. Qed.

(** C1. The spec has [pack] skip a stored item whose join with the
    root names nothing.  Here the item notes.txt was stored because it
    exists in the working directory; under the root /data it does not,
    [join_path] returns [None], and [pack] ends with the [TypeError] of
    [tar.add] instead of skipping the member. *)
Theorem pack_raises_on_unresolved_item :
  let a := {| __root := "/data"; __items := ["notes.txt"];
              __base_name := "Archive"; __packed := false;
              __timestamp := "20240309-070500" |} in
  __init__ world0 "/data" ["notes.txt"] "Archive" false = Ok a
  ∧ join_path world0 (get_root a) "notes.txt" = Ok None
  ∧ snd (pack tarfile_reads tarfile_bytes world0 a)
    = Err (Raise TypeError
             "expected str, bytes or os.PathLike object, not NoneType").
Proof.
  cbv zeta. split; [|split]; vm_compute; reflexivity.
Qed.

Lemma get_md5_unpacked w self :
  is_packed self = false →
  get_md5 w self
  = Err (Raise ArchiveException
           "Archive needs to be packed before generating md5sum.").
Proof. unfold get_md5. by intros ->. Qed.

(** The two ways [pack] can go. *)
Lemma pack_cases w self w' r :
  pack tarfile_reads tarfile_bytes w self = (w', r) →
  (∃ e, builtins.open_write w (get_name self true) = Err e
        ∧ w' = w ∧ r = Err e)
  ∨ (∃ f tar o,
       os.has_nul (get_name self true) = false
       ∧ os.creat w (get_name self true) = inr f
       ∧ pack_loop tarfile_reads (os.put w f [])
           (posixpath.abspath w (get_name self true))
           (get_root self) [] (get_items self) = (tar, o)
       ∧ w' = os.put w f
                (tarfile_bytes (os.put w f []) tar
                   (match o with None => true | Some _ => false end))
       ∧ r = match o with
             | None => Ok (set_packed self)
             | Some e => Err e
             end).
Proof.
  unfold pack.
  destruct (builtins.open_write w (get_name self true)) as [[f w1]|e] eqn:Hopen.
  - apply open_write_inv in Hopen as (Hnul & Hf & ->).
    destruct (pack_loop _ _ _ _ _ _) as [tar o] eqn:Hloop.
    intros Hpack. right. exists f, tar, o.
    destruct o as [e|]; injection Hpack as <- <-; rewrite put_put; done.
  - intros [= <- <-]. left. by exists e.
Qed.

(** What a successful [pack] leaves behind: the object with the flag
    set, and a world where the archive file exists under its name. *)
Lemma pack_ok w self w' self' :
  pack tarfile_reads tarfile_bytes w self = (w', Ok self') →
  self' = set_packed self
  ∧ ∃ f content,
      os.has_nul (get_name self true) = false
      ∧ os.creat w (get_name self true) = inr f ∧ w' = os.put w f content.
Proof.
  intros [(e & _ & _ & [=])|(f & tar & o & Hnul & Hf & _ & -> & Hr)]%pack_cases.
  destruct o as [e|]; [discriminate|]. injection Hr as <-.
  split; [reflexivity|]. eauto.
Qed.

(** C3, as the code has it. An object whose flag is unset (constructed
    without [packed=True] and not packed since) refuses [get_md5] with
    [ArchiveException]; after a successful [pack], [get_md5] returns a
    string of 32 characters out of 0-9 and a-f. *)
Theorem digest_gate (w : World) (self : Archive) :
  (is_packed self = false →
   get_md5 w self
   = Err (Raise ArchiveException
            "Archive needs to be packed before generating md5sum."))
  ∧ (∀ w' self',
       pack tarfile_reads tarfile_bytes w self = (w', Ok self') →
       ∃ d, get_md5 w' self' = Ok d
            ∧ String.length d = 32
            ∧ all_chars is_lower_hex d = true).
Proof.
  split; [apply get_md5_unpacked|].
  intros w' self' Hpack.
  apply pack_ok in Hpack as [-> (f & content & Hnul & Hf & ->)].
  unfold get_md5; cbn [is_packed set_packed __packed negb].
  change (get_name (set_packed self) true) with (get_name self true).
  rewrite (open_read_after_creat _ _ _ content Hnul Hf).
  eexists. split; [reflexivity|].
  unfold hash_file, io.read. apply hexdigest_format.
Qed.

(** C8. A call of a public operation leaves the object as it was,
    except a [pack] that succeeds, which sets the flag and nothing
    else; so a flag that is set stays set, over one call and over any
    sequence of calls. *)
Theorem packed_is_monotonic (c : call) (w : World) (self : Archive) :
  (∀ w' self' r,
     invoke tarfile_reads tarfile_bytes c w self = (w', self', r) →
     (self' = self ∨ (c = Cpack ∧ is_ok r = true ∧ self' = set_packed self))
     ∧ (is_packed self = true → is_packed self' = true))
  ∧ (∀ cs w' self',
       invoke_all tarfile_reads tarfile_bytes cs w self = (w', self') →
       is_packed self = true → is_packed self' = true).
Proof.
  assert (Hone : ∀ c w self w' self' r,
    invoke tarfile_reads tarfile_bytes c w self = (w', self', r) →
    (self' = self ∨ (c = Cpack ∧ is_ok r = true ∧ self' = set_packed self))
    ∧ (is_packed self = true → is_packed self' = true)).
  { clear. intros c w self w' self' r Hcall.
    assert (Hcase : self' = self
              ∨ (c = Cpack ∧ is_ok r = true ∧ self' = set_packed self)).
    { destruct c; cbn [invoke] in Hcall;
        try (injection Hcall as <- <- <-; by left).
      - destruct (get_md5 w self); injection Hcall as <- <- <-; by left.
      - destruct (pack tarfile_reads tarfile_bytes w self)
          as [w1 [self1|e]] eqn:Hpack;
          injection Hcall as <- <- <-; [right | by left].
        apply pack_ok in Hpack as [-> _]. done. }
    split; [exact Hcase|].
    destruct Hcase as [->|(_ & _ & ->)]; [trivial | reflexivity]. }
  split; [apply Hone|].
  intros cs. revert w self.
  induction cs as [|c' cs IH]; intros w0 self0 w' self'; cbn [invoke_all].
  - by intros [= <- <-].
  - destruct (invoke tarfile_reads tarfile_bytes c' w0 self0)
      as [[w1 self1] r] eqn:Hcall.
    intros Hrest Hp. apply (IH _ _ _ _ Hrest).
    by apply (Hone _ _ _ _ _ _ Hcall).
Qed.

End Packing.

(** ** archive.py: more on items and names *)

Section Items.

Import archive pathlib.

Lemma filter_sublist {A} (f : A → bool) (l : list A) :
  sublist (List.filter f l) l.
Proof.
  induction l as [|x l IH]; cbn [List.filter]; [constructor|].
  destruct (f x); by constructor.
Qed.

Lemma filter_filter {A} (f : A → bool) (l : list A) :
  List.filter f (List.filter f l) = List.filter f l.
Proof.
  induction l as [|x l IH]; cbn [List.filter]; [reflexivity|].
  destruct (f x) eqn:Hx; [|exact IH].
  cbn [List.filter]. by rewrite Hx, IH.
Qed.

Lemma kept_resolves w root c : kept w root c = true ↔ resolves w root c = Ok true.
Proof.
  unfold kept. destruct (resolves w root c) as [[|]|]; split; congruence.
Qed.

(** Candidates that were kept raise nothing when asked again. *)
Lemma first_raise_kept w root candidates :
  first_raise w root (List.filter (kept w root) candidates) = None.
Proof.
  induction candidates as [|c cs IH]; [reflexivity|]. cbn [List.filter].
  destruct (kept w root c) eqn:Hc; [|exact IH].
  cbn [first_raise]. apply kept_resolves in Hc. by rewrite Hc.
Qed.

(** X1. The items of a constructed object are exactly the candidates
    that name a file or directory, as given or under the root: nothing
    that fails both tests is ever stored, nothing that passes one is
    lost. *)
Theorem stored_items_resolve (w : World) (froot : string)
  (fitems : list string) (base : string) (packed : bool) (a : Archive) :
  __init__ w froot fitems base packed = Ok a →
  ∀ item, item ∈ get_items a ↔ item ∈ fitems ∧ resolves w froot item = Ok true.
Proof.
  intros Hinit item. unfold get_items. rewrite (init_items _ _ _ _ _ _ Hinit).
  rewrite !list_elem_of_In, <- kept_resolves. apply filter_In.
Qed.

(** X2. The items of a constructed object are a subsequence of the
    candidates, and resolving them again in the same world keeps them
    all: constructing a second object from [get_items] of the first
    succeeds and gives the same items. *)
Theorem stored_items_stable (w : World) (froot : string)
  (fitems : list string) (base : string) (packed : bool) (a : Archive) :
  __init__ w froot fitems base packed = Ok a →
  sublist (get_items a) fitems
  ∧ (∀ base' packed' b,
       __init__ w froot (get_items a) base' packed' = Ok b →
       get_items b = get_items a)
  ∧ (∀ base' packed',
       ∃ b, __init__ w froot (get_items a) base' packed' = Ok b).
Proof.
  intros Hinit. unfold get_items. rewrite (init_items _ _ _ _ _ _ Hinit).
  split; [apply filter_sublist|]. split.
  - intros base' packed' b Hb.
    rewrite (init_items _ _ _ _ _ _ Hb). apply filter_filter.
  - intros base' packed'. apply init_inv in Hinit as (Hdir & _ & _).
    rewrite init_cases, Hdir, first_raise_kept. eauto.
Qed.

Lemma truediv_absolute x item :
  pystr.startswith "/" item = true → truediv x item = parse item.
Proof.
  intros Habs. unfold truediv.
  destruct (parse_cases item) as [[Hrel _]|[(t & _ & ->)|(t & _ & ->)]];
    [congruence| |]; reflexivity.
Qed.

(** X3. For an item that starts with a slash the root plays no part:
    [join_path] makes of it what the test of the item itself says, the
    item's own path where it exists, [None] where it does not, and the
    error of the test where that raises, whatever the root; and
    resolution keeps it on the same condition. *)
Theorem absolute_item_ignores_root (w : World) (root item : string) :
  pystr.startswith "/" item = true →
  join_path w root item
  = match is_valid_item w (PStr item) with
    | Err e => Err e
    | Ok true => Ok (Some (parse item))
    | Ok false => Ok None
    end
  ∧ resolves w root item = is_valid_item w (PStr item).
Proof.
  intros Habs. unfold join_path, resolves. cbn [Path].
  rewrite !truediv_absolute by exact Habs.
  change (is_valid_item w (PPath (parse item))) with (is_valid_item w (PStr item)).
  split; [reflexivity|].
  by destruct (is_valid_item w (PStr item)) as [[|]|] eqn:Hitem.
Qed.

Lemma lstrip_fixed s :
  (∀ c, head_char s = Some c → pystr.isspace c = false) → pystr.lstrip s = s.
Proof.
  destruct s as [|c s]; [done|]. intros Hhead. cbn [pystr.lstrip].
  by rewrite (Hhead c eq_refl).
Qed.

Lemma rstrip_fixed s :
  (∀ c, last_char s = Some c → pystr.isspace c = false) → pystr.rstrip s = s.
Proof.
  induction s as [|c s IH]; [done|]. intros Hlast. cbn [pystr.rstrip].
  destruct s as [|d s].
  - cbn [pystr.rstrip]. by rewrite (Hlast c eq_refl).
  - rewrite IH; [reflexivity|]. intros e He. apply Hlast. exact He.
Qed.

Lemma _set_name_shape name :
  _set_name name ≠ EmptyString
  ∧ (∀ c, head_char (_set_name name) = Some c → pystr.isspace c = false)
  ∧ (∀ c, last_char (_set_name name) = Some c → pystr.isspace c = false).
Proof.
  rewrite _set_name_base. unfold base_name_of.
  destruct (strip_spec name) as (l & r & _ & _ & _ & Hhead & Hlast).
  destruct (pystr.strip name) as [|c t] eqn:Hstrip.
  - split; [done|]. split; intros c [= <-]; reflexivity.
  - split; [done|]. split; assumption.
Qed.

(** X4. The base name of a constructed object is never empty, has no
    whitespace at either end, and is a fixed point of [_set_name]:
    naming a second object after the first changes nothing. *)
Theorem base_name_invariant (w : World) (froot : string)
  (fitems : list string) (base : string) (packed : bool) (a : Archive) :
  __init__ w froot fitems base packed = Ok a →
  __base_name a ≠ EmptyString
  ∧ (∀ c, head_char (__base_name a) = Some c → pystr.isspace c = false)
  ∧ (∀ c, last_char (__base_name a) = Some c → pystr.isspace c = false)
  ∧ _set_name (__base_name a) = __base_name a.
Proof.
  intros (_ & _ & ->)%init_inv. cbn [__base_name].
  rewrite <- _set_name_base.
  destruct (_set_name_shape base) as (Hne & Hhead & Hlast).
  repeat split; try assumption.
  assert (Hstrip : pystr.strip (_set_name base) = _set_name base).
  { unfold pystr.strip. rewrite (lstrip_fixed _ Hhead). by apply rstrip_fixed. }
  unfold _set_name at 1. rewrite Hstrip.
  by destruct (_set_name base).
Qed.

End Items.

(** ** archive.py: more on packing and hashing *)

Section MorePacking.

Import archive pathlib.

Variable tarfile_reads : World → PurePath → string → option exn.
Variable tarfile_bytes : World → list tarfile.member → bool → list byte.

Lemma join_path_some w root item x :
  join_path w root item = Ok (Some x) → x = truediv (parse root) item.
Proof.
  unfold join_path; cbn [Path].
  destruct (is_valid_item w _) as [[|]|]; [|done..]. by intros [= <-].
Qed.

(** Where every item can be added, the loop of [pack] adds them all,
    in order, but for the archive itself. *)
Lemma pack_loop_added w self_name root items : ∀ tar,
  Forall (can_add tarfile_reads w self_name root) items →
  pack_loop tarfile_reads w self_name root tar items
  = (tar ++ expected_members w self_name root items, None).
Proof.
  induction items as [|i rest IH]; intros tar Hall; cbn [pack_loop].
  - unfold expected_members. cbn. by rewrite app_nil_r.
  - inversion Hall as [|? ? [Hjoin Hread] Hrest]; subst.
    rewrite Hjoin. unfold tarfile.add, expected_members. cbn [List.filter].
    fold (is_archive_itself w self_name root i).
    destruct (is_archive_itself w self_name root i); cbn [negb].
    + apply (IH _ Hrest).
    + rewrite (Hread eq_refl), (IH _ Hrest). cbn [List.map].
      by rewrite <- app_assoc.
Qed.


(** What stops the loop of [pack]: the test of an item that raises, an
    item that names nothing, or a member that cannot be read. *)
Lemma pack_loop_error w self_name root items : ∀ tar tar' e,
  pack_loop tarfile_reads w self_name root tar items = (tar', Some e) →
  ∃ item, item ∈ items
    ∧ (join_path w root item = Err e
       ∨ (join_path w root item = Ok None
          ∧ e = Raise TypeError
                  "expected str, bytes or os.PathLike object, not NoneType")
       ∨ (∃ x, join_path w root item = Ok (Some x)
               ∧ tarfile_reads w x item = Some e)).
Proof.
  induction items as [|i rest IH]; intros tar tar' e; cbn [pack_loop]; [done|].
  destruct (join_path w root i) as [[x|]|e'] eqn:Hjoin.
  - unfold tarfile.add.
    destruct (String.eqb _ self_name).
    + intros (item & Hin & Hitem)%IH. exists item. split; [by right | done].
    + destruct (tarfile_reads w x i) as [e'|] eqn:Hread.
      * intros [= _ <-]. exists i. split; [by left|]. right. right. eauto.
      * intros (item & Hin & Hitem)%IH. exists item. split; [by right | done].
  - cbn [tarfile.add]. intros [= _ <-]. exists i. split; [by left|]. auto.
  - intros [= _ <-]. exists i. split; [by left|]. auto.
Qed.


(** X6. A [pack] that raises either could not open the archive file,
    and then raises what [open] raised with the world untouched, or
    was stopped at an item after the file was opened, and then leaves
    the abandoned archive file behind under the archive's name: the
    test of the item raised, or the item named nothing and [tar.add]
    raised [TypeError], or the member could not be read. *)
Theorem pack_failure (w : World) (self : Archive) (w' : World) (e : exn) :
  pack tarfile_reads tarfile_bytes w self = (w', Err e) →
  (w' = w ∧ builtins.open_write w (get_name self true) = Err e)
  ∨ (∃ f w1 content,
       builtins.open_write w (get_name self true) = Ok (f, w1)
       ∧ os.stat w' (get_name self true) = inr (f, File content)
       ∧ ∃ item, item ∈ get_items self
           ∧ (join_path w1 (get_root self) item = Err e
              ∨ (join_path w1 (get_root self) item = Ok None
                 ∧ e = Raise TypeError
                         "expected str, bytes or os.PathLike object, not NoneType")
              ∨ (∃ x, join_path w1 (get_root self) item = Ok (Some x)
                      ∧ tarfile_reads w1 x item = Some e))).
Proof.
  intros [(e' & Hopen & -> & [= ->])
         |(f & tar & o & Hnul & Hf & Hloop & -> & Hr)]%pack_cases.
  - by left.
  - right. destruct o as [e'|]; [|discriminate]. injection Hr as <-.
    exists f, (os.put w f []). eexists. split; [by apply open_write_intro|].
    split; [by apply stat_after_creat|].
    by eapply pack_loop_error.
Qed.

(** X7. [pack] writes one file and nothing else: the working directory,
    the home directory and the clock are as before, and so is every
    path of the file system other than the archive's own. *)
Theorem pack_frame (w : World) (self : Archive) (w' : World)
  (r : result Archive) :
  pack tarfile_reads tarfile_bytes w self = (w', r) →
  cwd w' = cwd w ∧ home w' = home w ∧ now w' = now w
  ∧ ∀ q, os.creat w (get_name self true) ≠ inr q → fs w' !! q = fs w !! q.
Proof.
  intros [(e & _ & -> & _)|(f & tar & o & _ & Hf & _ & -> & _)]%pack_cases.
  - done.
  - repeat split. intros q Hq. cbn [fs os.put].
    apply lookup_insert_ne. congruence.
Qed.

(** X8. Packing again works: after a [pack] that succeeded, a second
    [pack] succeeds too, writes the same file again and returns the
    object as it is. *)
Theorem pack_twice (w : World) (self : Archive) (w' : World) (self' : Archive) :
  pack tarfile_reads tarfile_bytes w self = (w', Ok self') →
  ∃ f content,
    os.creat w (get_name self true) = inr f
    ∧ os.creat w' (get_name self' true) = inr f
    ∧ pack tarfile_reads tarfile_bytes w' self' = (os.put w' f content, Ok self').
Proof.
  intros [(e & _ & _ & [=])|(f & tar & o & Hnul & Hf & Hloop & -> & Hr)]%pack_cases.
  destruct o as [e|]; [discriminate|]. injection Hr as ->.
  change (get_name (set_packed self) true) with (get_name self true).
  pose proof (creat_put _ _ _
                (tarfile_bytes (os.put w f []) tar true) Hf) as Hagain.
  eexists f, _. split; [exact Hf|]. split; [exact Hagain|].
  unfold pack.
  change (get_name (set_packed self) true) with (get_name self true).
  change (get_root (set_packed self)) with (get_root self).
  change (get_items (set_packed self)) with (get_items self).
  rewrite (open_write_intro _ _ _ Hnul Hagain), put_put.
  change (posixpath.abspath (os.put w f ?c) ?n) with (posixpath.abspath w n).
  rewrite Hloop, !put_put. reflexivity.
Qed.

Lemma hash_file_reference content : hash_file content = md5_reference content.
Proof.
  rewrite <- one_pass_reference.
  unfold hash_file, io.read.
  rewrite read_loop_update.
  - by rewrite take_drop.
  - cbn. lia.
  - intros Hnil. pose proof CHUNK_pos.
    destruct content as [|x content]; [reflexivity|].
    destruct CHUNK; [lia | discriminate].
Qed.

(** X9. [get_md5] returns a digest exactly when the object is packed
    and [open] can read a file under the packed name, and the digest
    is then the MD5 of that file's content; when the object is packed
    and the file cannot be opened, what [open] raised comes out as it
    is: an [OSError], or the [ValueError] for a name with a zero
    byte. *)
Theorem get_md5_outcomes (w : World) (self : Archive) :
  (∀ d, get_md5 w self = Ok d
        ↔ is_packed self = true
          ∧ ∃ content,
              builtins.open_read w (get_name self true) = Ok content
              ∧ d = md5_reference content)
  ∧ (∀ e, is_packed self = true →
          builtins.open_read w (get_name self true) = Err e →
          get_md5 w self = Err e
          ∧ (isinstance e OSError = true
             ∨ (os.has_nul (get_name self true) = true
                ∧ e = os.embedded_null))).
Proof.
  unfold get_md5. split.
  - intros d. destruct (is_packed self); cbn [negb].
    + destruct (builtins.open_read w (get_name self true)) as [content|e].
      * rewrite hash_file_reference. split.
        -- intros [= <-]. eauto.
        -- by intros (_ & content' & [= <-] & ->).
      * split; [discriminate|]. by intros (_ & content' & [=] & _).
    + split; [discriminate | by intros [[=] _]].
  - intros e -> Hopen. cbn [negb]. rewrite Hopen. split; [reflexivity|].
    by eapply open_read_error.
Qed.

(** X10. The digest after a [pack] that succeeded is the MD5 of the
    very bytes [pack] wrote into the archive file. *)
Theorem digest_of_packed (w : World) (self : Archive) (w' : World)
  (self' : Archive) :
  pack tarfile_reads tarfile_bytes w self = (w', Ok self') →
  ∃ f content,
    os.creat w (get_name self true) = inr f
    ∧ fs w' !! f = Some (File content)
    ∧ get_md5 w' self' = Ok (md5_reference content).
Proof.
  intros [(e & _ & _ & [=])|(f & tar & o & Hnul & Hf & Hloop & -> & Hr)]%pack_cases.
  destruct o as [e|]; [discriminate|]. injection Hr as ->.
  eexists f, _. split; [exact Hf|]. split.
  - cbn [fs os.put]. apply lookup_insert_eq.
  - unfold get_md5; cbn [is_packed set_packed __packed negb].
    change (get_name (set_packed self) true) with (get_name self true).
    rewrite (open_read_after_creat _ _ _ _ Hnul Hf), hash_file_reference.
    reflexivity.
Qed.

(** Writing a file where no directory is does not make an item invalid. *)
Lemma join_path_put w root item f data x :
  f ≠ [] → os.node_at (fs w) f ≠ Some Dir →
  join_path w root item = Ok (Some x) →
  join_path (os.put w f data) root item = Ok (Some x).
Proof.
  intros Hf Hnot. unfold join_path, is_valid_item, is_valid_dir, is_valid_file.
  cbn [Path]. set (full := truediv (parse root) item).
  destruct (is_dir w full) as [[|]|] eqn:Hdir; [| |done].
  - by rewrite (is_dir_put _ _ _ data Hf Hnot Hdir).
  - destruct (is_file w full) as [[|]|] eqn:Hfile; [|done..].
    by destruct (is_file_put _ _ _ data Hf Hnot Hfile) as [-> ->].
Qed.

Lemma first_raise_none w root candidates c :
  first_raise w root candidates = None → c ∈ candidates →
  ∃ b, resolves w root c = Ok b.
Proof.
  induction candidates as [|c' cs IH]; [by intros _ ?%elem_of_nil|].
  cbn [first_raise]. destruct (resolves w root c') as [b|e] eqn:Hc'; [|done].
  intros Hcs [->|Hin]%elem_of_cons; eauto.
Qed.

(** X11. From construction to archive: where every candidate names
    something under the root, the archive file can be created and the
    tar writer can read the members, [pack] on the new object succeeds
    and the archive holds all the candidates, in the order given, each
    under its name without leading slashes, but for the archive itself,
    which is left out. *)
Theorem construct_then_pack (w : World) (froot : string)
  (fitems : list string) (base : string) (packed : bool) (a : Archive)
  (f : list string) (w1 : World) :
  __init__ w froot fitems base packed = Ok a →
  Forall (λ item, ∃ x, join_path w froot item = Ok (Some x)) fitems →
  builtins.open_write w (get_name a true) = Ok (f, w1) →
  (∀ item, item ∈ fitems →
     tarfile_reads w1 (truediv (parse froot) item) item = None) →
  pack tarfile_reads tarfile_bytes w a
  = (os.put w1 f
       (tarfile_bytes w1
          (expected_members w1 (posixpath.abspath w (get_name a true))
             froot fitems) true),
     Ok (set_packed a)).
Proof.
  intros Hinit Hall Hopen Hreads.
  pose proof Hinit as (_ & Hraise & Ha)%init_inv.
  assert (Hitems : get_items a = fitems).
  { unfold get_items. rewrite (init_items _ _ _ _ _ _ Hinit).
    clear Hinit Hopen Hreads Ha.
    assert (Hin : ∀ c, c ∈ fitems → ∃ b, resolves w froot c = Ok b)
      by (intros c; by apply first_raise_none).
    clear Hraise.
    induction Hall as [|i rest [x Hi] _ IH]; [reflexivity|].
    cbn [List.filter]. rewrite IH by (intros c Hc; apply Hin; by right).
    assert (kept w froot i = true) as ->; [|reflexivity].
    destruct (Hin i ltac:(by left)) as [b Hb].
    apply kept_resolves. revert Hb. unfold resolves.
    revert Hi. unfold join_path; cbn [Path].
    destruct (is_valid_item w (PPath _)) as [[|]|]; [|done..]. intros _.
    by destruct (is_valid_item w (PStr i)) as [[|]|]. }
  assert (Hroot : get_root a = froot) by by rewrite Ha.
  pose proof Hopen as (Hnul & Hf & ->)%open_write_inv.
  unfold pack. rewrite Hopen, Hitems, Hroot.
  rewrite (pack_loop_added _ _ _ _ []); [reflexivity|].
  apply Forall_forall. intros i Hi.
  rewrite Forall_forall in Hall. destruct (Hall i Hi) as [x Hx].
  pose proof (join_path_some _ _ _ _ Hx) as ->.
  split; [|intros _; by apply Hreads].
  apply join_path_put; [by eapply creat_not_root | by eapply creat_not_dir | exact Hx].
Qed.

(** What a call does to the object. *)
Lemma invoke_object c w self w' self' r :
  invoke tarfile_reads tarfile_bytes c w self = (w', self', r) →
  self' = self ∨ self' = set_packed self.
Proof.
  destruct c; cbn [invoke]; try (intros [= <- <- <-]; by left).
  - destruct (get_md5 w self); intros [= <- <- <-]; by left.
  - destruct (pack tarfile_reads tarfile_bytes w self)
      as [w1 [self1|e]] eqn:Hpack;
      intros [= <- <- <-]; [right | by left].
    by apply (pack_ok tarfile_reads tarfile_bytes) in Hpack as [-> _].
Qed.

(** X12. Over the life of an object, whatever is called on it, the
    root, the items, the base name and the timestamp stay what the
    constructor made them; so [get_name] gives the same names from the
    first call to the last. *)
Theorem attributes_are_fixed (cs : list call) : ∀ (w : World) (self : Archive)
  (w' : World) (self' : Archive),
  invoke_all tarfile_reads tarfile_bytes cs w self = (w', self') →
  get_root self' = get_root self
  ∧ get_items self' = get_items self
  ∧ ∀ flag, get_name self' flag = get_name self flag.
Proof.
  induction cs as [|c cs IH]; intros w self w' self'; cbn [invoke_all].
  - by intros [= <- <-].
  - destruct (invoke tarfile_reads tarfile_bytes c w self)
      as [[w1 self1] r] eqn:Hcall.
    intros (Hroot & Hitems & Hname)%IH.
    apply invoke_object in Hcall as [-> | ->]; [done|].
    rewrite Hroot, Hitems. repeat split. intros flag. by rewrite Hname.
Qed.


End MorePacking.

(** ** bak.py: the configuration file *)

Section Config.

Import bak.

Variable json_load : list byte → result json.value.

Lemma ConfigError_is_OSError : issubclass ConfigError OSError = true.
Proof. reflexivity. Qed.

(** What [is_file] raises is an [OSError]. *)
Lemma is_file_raises_OSError w x e :
  pathlib.is_file w x = Err e → isinstance e OSError = true.
Proof.
  intros (no & _ & _ & ->)%is_file_error%stat_or_false_error.
  apply os_error_is_OSError.
Qed.

Lemma create_config_exists w fname :
  pathlib.is_file w (pathlib.parse fname) = Ok true →
  create_config w fname
  = (w, Err (Raise ConfigError
               ("Could not create '" +:+ fname +:+ "': File already exists."))).
Proof.
  unfold create_config; cbn [pathlib.Path]. intros ->. reflexivity.
Qed.

Lemma load_config_missing w fname :
  pathlib.is_file w (pathlib.parse fname) = Ok false →
  load_config json_load w fname
  = Err (Raise ConfigError
           ("Could not load '" +:+ fname
              +:+ "': Configuration provided either does not exist or it is not a file.")).
Proof.
  unfold load_config; cbn [pathlib.Path]. intros ->. reflexivity.
Qed.

Lemma create_config_writes w fname f w1 :
  pathlib.is_file w (pathlib.parse fname) = Ok false →
  builtins.open_write w fname = Ok (f, w1) →
  create_config w fname
  = (os.put w f (io.encode (json.dumps (template w) 4)), Ok tt).
Proof.
  unfold create_config; cbn [pathlib.Path].
  intros -> Hopen. rewrite Hopen.
  apply open_write_inv in Hopen as (_ & _ & ->). by rewrite put_put.
Qed.

Lemma create_config_refused w fname e :
  pathlib.is_file w (pathlib.parse fname) = Ok false →
  builtins.open_write w fname = Err e →
  create_config w fname
  = (w, Err (if isinstance e OSError
             then Raise ConfigError
                    ("Could not create '" +:+ fname +:+ "': " +:+ exc_str e)
             else e)).
Proof.
  unfold create_config; cbn [pathlib.Path].
  intros -> ->. by destruct (isinstance e OSError).
Qed.

Lemma create_config_untested w fname e :
  pathlib.is_file w (pathlib.parse fname) = Err e →
  create_config w fname
  = (w, Err (Raise ConfigError
               ("Could not create '" +:+ fname +:+ "': " +:+ exc_str e))).
Proof.
  unfold create_config; cbn [pathlib.Path].
  intros Hfile. by rewrite Hfile, (is_file_raises_OSError _ _ _ Hfile).
Qed.

(** C2. The spec has use mode hand the root and the files of the
    parsed configuration to an [Archive].  For every configuration file
    that exists, opens and parses, [load_config] returns the data and
    [main] drops it: it returns with the world as it was and nothing
    printed; no archive is made. *)
Theorem use_mode_discards_config (w : World) (args : Namespace)
  (content : list byte) (data : json.value) :
  use args = true →
  pathlib.is_file w (pathlib.parse (config args)) = Ok true →
  builtins.open_read w (config args) = Ok content →
  json_load content = Ok data →
  load_config json_load w (config args) = Ok data
  ∧ main json_load w args = (w, ([], Return)).
Proof.
  intros Huse Hfile Hopen Hjson.
  assert (Hload : load_config json_load w (config args) = Ok data).
  { unfold load_config; cbn [pathlib.Path].
    by rewrite Hfile, Hopen, Hjson. }
  split; [exact Hload|].
  unfold main. by rewrite Huse, Hload.
Qed.

(** C9, as the code has it. Where a regular file exists at the target,
    [create_config] raises [ConfigError] and the world is as before.
    Where nothing exists at the target, or [is_file] says for another
    reason that no file does, and [open] succeeds, the file gets the
    JSON text of a dict whose "root" is the home directory and whose
    "files" has the two sample entries.  Where [is_file] says
    there is none and [open] raises, nothing is written: an [OSError]
    comes out as [ConfigError], anything else as it is.  Where
    [is_file] itself raises, [ConfigError] again and nothing written. *)
Theorem create_mode (w : World) (fname : string) :
  (∀ q data,
     os.has_nul fname = false → os.stat w fname = inr (q, File data) →
     create_config w fname
     = (w, Err (Raise ConfigError
                  ("Could not create '" +:+ fname
                     +:+ "': File already exists."))))
  ∧ (pathlib.is_file w (pathlib.parse fname) = Ok true →
     create_config w fname
     = (w, Err (Raise ConfigError
                  ("Could not create '" +:+ fname
                     +:+ "': File already exists."))))
  ∧ (os.stat w fname = inl os.ENOENT →
     ∀ f w1, builtins.open_write w fname = Ok (f, w1) →
       create_config w fname
       = (os.put w f (io.encode (json.dumps (template w) 4)), Ok tt))
  ∧ (pathlib.is_file w (pathlib.parse fname) = Ok false →
     ∀ f w1, builtins.open_write w fname = Ok (f, w1) →
       create_config w fname
       = (os.put w f (io.encode (json.dumps (template w) 4)), Ok tt)
       ∧ json.getitem (template w) "root" = Some (json.JStr (home_str w))
       ∧ json.getitem (template w) "files"
         = Some (json.JList [json.JStr "pictures";
                             json.JStr "videos/funny_vid.mp4"]))
  ∧ (pathlib.is_file w (pathlib.parse fname) = Ok false →
     ∀ e, builtins.open_write w fname = Err e →
       create_config w fname
       = (w, Err (if isinstance e OSError
                  then Raise ConfigError
                         ("Could not create '" +:+ fname +:+ "': "
                            +:+ exc_str e)
                  else e)))
  ∧ (∀ e, pathlib.is_file w (pathlib.parse fname) = Err e →
       create_config w fname
       = (w, Err (Raise ConfigError
                    ("Could not create '" +:+ fname +:+ "': "
                       +:+ exc_str e)))).
Proof.
  split; [|split; [|split; [|split; [|split]]]].
  - intros q data Hnul Hstat. apply create_config_exists.
    by eapply is_file_exists.
  - apply create_config_exists.
  - intros Hstat f w1 Hopen. eapply create_config_writes; [|exact Hopen].
    apply is_file_missing; [|exact Hstat]. by intros ->.
  - intros Hfile f w1 Hopen. split; [by eapply create_config_writes|].
    split; reflexivity.
  - intros Hfile e Hopen. by apply create_config_refused.
  - apply create_config_untested.
Qed.

(** C10. [ConfigError] is an [OSError], so the [ConfigError] that
    [create_config] raises for an existing file is caught by its own
    handler and raised again with the prefix; [load_config] does the
    same with the one it raises for a missing file. *)
Theorem config_error_is_wrapped (w : World) (fname : string) :
  issubclass ConfigError OSError = true
  ∧ (pathlib.is_file w (pathlib.parse fname) = Ok true →
     create_config w fname
     = (w, Err (Raise ConfigError
                  ("Could not create '" +:+ fname +:+ "': File already exists."))))
  ∧ (pathlib.is_file w (pathlib.parse fname) = Ok false →
     load_config json_load w fname
     = Err (Raise ConfigError
              ("Could not load '" +:+ fname
                 +:+ "': Configuration provided either does not exist or it is not a file."))).
Proof.
  split; [reflexivity|]. split.
  - apply create_config_exists.
  - apply load_config_missing.
Qed.

End Config.

(** ** bak.py: more on the configuration file and on [main] *)

Section MoreConfig.

Import bak.

Variable json_load : list byte → result json.value.

(** A file that [open] can read passes the test of [is_file]. *)
Lemma open_read_is_file w fname content :
  builtins.open_read w fname = Ok content →
  pathlib.is_file w (pathlib.parse fname) = Ok true.
Proof.
  unfold builtins.open_read.
  destruct (os.has_nul fname) eqn:Hnul; [done|].
  destruct (os.stat w fname) as [e|[q [data|]]] eqn:Hstat; try discriminate.
  intros _. by eapply is_file_exists.
Qed.

Lemma load_config_opened w fname content :
  builtins.open_read w fname = Ok content →
  load_config json_load w fname
  = match json_load content with
    | Ok data => Ok data
    | Err exc =>
        if isinstance exc OSError then
          Err (Raise ConfigError
                 ("Could not load '" +:+ fname +:+ "': " +:+ exc_str exc))
        else Err exc
    end.
Proof.
  intros Hopen. unfold load_config; cbn [pathlib.Path].
  rewrite (open_read_is_file _ _ _ Hopen), Hopen.
  by destruct (json_load content).
Qed.

(** X14. [load_config] returns data exactly when [open] can read the
    file and the decoder accepts its content: the test with [is_file]
    before the [open] never turns away a file that would have loaded. *)
Theorem load_config_iff_open (w : World) (fname : string) (data : json.value) :
  load_config json_load w fname = Ok data
  ↔ ∃ content,
      builtins.open_read w fname = Ok content ∧ json_load content = Ok data.
Proof.
  split.
  - unfold load_config; cbn [pathlib.Path].
    destruct (pathlib.is_file w (pathlib.parse fname)) as [[|]|e0];
      [|discriminate|by destruct (isinstance e0 OSError)].
    destruct (builtins.open_read w fname) as [content|e].
    + destruct (json_load content) as [data'|e] eqn:Hjson.
      * intros [= <-]. eauto.
      * by destruct (isinstance e OSError).
    + by destruct (isinstance e OSError).
  - intros (content & Hopen & Hjson).
    by rewrite (load_config_opened _ _ _ Hopen), Hjson.
Qed.

(** X15. What [load_config] raises is either a [ConfigError] whose
    message starts with "Could not load" and the file name, or an
    exception of the decoder that is not an [OSError], passed on as it
    is; no other [OSError] ever escapes. *)
Theorem load_config_errors (w : World) (fname : string) (e : exn) :
  load_config json_load w fname = Err e →
  (∃ msg, e = Raise ConfigError ("Could not load '" +:+ fname +:+ "': " +:+ msg))
  ∨ (isinstance e OSError = false
     ∧ ∃ content,
         builtins.open_read w fname = Ok content ∧ json_load content = Err e).
Proof.
  unfold load_config; cbn [pathlib.Path].
  destruct (pathlib.is_file w (pathlib.parse fname)) as [[|]|e0] eqn:Hfile.
  - destruct (builtins.open_read w fname) as [content|e0] eqn:Hopen.
    + destruct (json_load content) as [data|e0] eqn:Hjson; [discriminate|].
      destruct (isinstance e0 OSError) eqn:Hos; intros [= <-]; [left | right];
        eauto.
    + assert (isinstance e0 OSError = true) as ->.
      { destruct (open_read_error _ _ _ Hopen) as [Hos|[Hnul _]]; [exact Hos|].
        apply is_file_no_nul in Hfile. congruence. }
      intros [= <-]. left. eauto.
  - intros [= <-]. left. eauto.
  - rewrite (is_file_raises_OSError _ _ _ Hfile). intros [= <-]. left. eauto.
Qed.

(** The three ways [create_config] can go. *)
Lemma create_config_cases w fname w' r :
  create_config w fname = (w', r) →
  (w' = w ∧ ∃ msg,
     r = Err (Raise ConfigError ("Could not create '" +:+ fname +:+ "': " +:+ msg)))
  ∨ (w' = w ∧ ∃ e,
       pathlib.is_file w (pathlib.parse fname) = Ok false
       ∧ builtins.open_write w fname = Err e
       ∧ isinstance e OSError = false
       ∧ r = Err e)
  ∨ (∃ f, pathlib.is_file w (pathlib.parse fname) = Ok false
          ∧ os.has_nul fname = false
          ∧ os.creat w fname = inr f
          ∧ w' = os.put w f (io.encode (json.dumps (template w) 4))
          ∧ r = Ok tt).
Proof.
  destruct (pathlib.is_file w (pathlib.parse fname)) as [[|]|e] eqn:Hfile.
  - rewrite (create_config_exists _ _ Hfile). intros [= <- <-]. left. eauto.
  - destruct (builtins.open_write w fname) as [[f w1]|e] eqn:Hopen.
    + rewrite (create_config_writes _ _ _ _ Hfile Hopen). intros [= <- <-].
      apply open_write_inv in Hopen as (Hnul & Hf & _).
      right. right. by exists f.
    + rewrite (create_config_refused _ _ _ Hfile Hopen).
      destruct (isinstance e OSError) eqn:Hos; intros [= <- <-].
      * left. eauto.
      * right. left. split; [done|]. by exists e.
  - rewrite (create_config_untested _ _ _ Hfile). intros [= <- <-]. left. eauto.
Qed.

(** X16. When [create_config] raises, nothing has been written; and
    what it raises is a [ConfigError] with a message that starts with
    "Could not create" and the file name, unless [open] raised
    something that is not an [OSError], the [ValueError] for a name
    with a zero byte, which comes out as it is. *)
Theorem create_config_errors (w : World) (fname : string) (w' : World)
  (e : exn) :
  create_config w fname = (w', Err e) →
  w' = w
  ∧ ((∃ msg, e = Raise ConfigError
                   ("Could not create '" +:+ fname +:+ "': " +:+ msg))
     ∨ (builtins.open_write w fname = Err e
        ∧ isinstance e OSError = false
        ∧ os.has_nul fname = true
        ∧ e = os.embedded_null)).
Proof.
  intros [[-> [msg [= ->]]]
         |[[-> (e' & _ & Hopen & Hos & [= ->])]
          |(f & _ & _ & _ & _ & [=])]]%create_config_cases.
  - split; [done|]. left. eauto.
  - split; [done|]. right.
    destruct (open_write_error _ _ _ Hopen) as [Hyes|[Hnul ->]]; [congruence|].
    done.
Qed.

(** X17. What [create_config] wrote, [load_config] reads back: after a
    successful create, loading the same name hands the decoder the
    template text and returns what the decoder makes of it; and a second
    create of the same name is refused with "File already exists." and
    leaves the file alone. *)
Theorem create_then_load (w : World) (fname : string) (w' : World) :
  create_config w fname = (w', Ok tt) →
  (∀ data,
     json_load (io.encode (json.dumps (template w) 4)) = Ok data →
     load_config json_load w' fname = Ok data)
  ∧ create_config w' fname
    = (w', Err (Raise ConfigError
                  ("Could not create '" +:+ fname
                     +:+ "': File already exists."))).
Proof.
  intros [[_ [msg [=]]]
         |[[_ (e & _ & _ & _ & [=])]
          |(f & _ & Hnul & Hf & -> & _)]]%create_config_cases.
  pose proof (open_read_after_creat _ _ _
                (io.encode (json.dumps (template w) 4)) Hnul Hf) as Hopen.
  split.
  - intros data Hjson. by rewrite (load_config_opened _ _ _ Hopen), Hjson.
  - apply create_config_exists. by eapply open_read_is_file.
Qed.

(** X18. [create_config] writes one file and nothing else: the working
    directory, the home directory and the clock are as before, and so
    is every path of the file system other than the target. *)
Theorem create_config_frame (w : World) (fname : string) (w' : World)
  (r : result unit) :
  create_config w fname = (w', r) →
  cwd w' = cwd w ∧ home w' = home w ∧ now w' = now w
  ∧ ∀ q, os.creat w fname ≠ inr q → fs w' !! q = fs w !! q.
Proof.
  intros [[-> _]|[[-> _]|(f & _ & _ & Hf & -> & _)]]%create_config_cases;
    [done..|].
  repeat split. intros q Hq. cbn [fs os.put].
  apply lookup_insert_ne. congruence.
Qed.

(** X19. With [--silent], [main] prints nothing at all, not even the
    message of an error. *)
Theorem main_silent (w : World) (args : Namespace) :
  silent args = true → fst (snd (main json_load w args)) = [].
Proof.
  intros Hsilent. unfold main, handlers, nprint. rewrite Hsilent. cbn [negb].
  destruct (use args).
  - destruct (load_config json_load w (config args)) as [data|e];
      [reflexivity|].
    destruct (isinstance e ConfigError); [reflexivity|].
    by destruct (isinstance e Exception).
  - destruct (create_config w (config args)) as [w' [[]|e]]; [reflexivity|].
    destruct (isinstance e ConfigError); [reflexivity|].
    by destruct (isinstance e Exception).
Qed.

(** X20. In use mode [main] never writes: the world afterwards is the
    world before; and it returns normally exactly when the
    configuration loads, leaving through [sys.exit(-1)] whenever
    [load_config] raises an [Exception]. *)
Theorem main_use (w : World) (args : Namespace) :
  use args = true →
  fst (main json_load w args) = w
  ∧ (snd (snd (main json_load w args)) = Return
     ↔ is_ok (load_config json_load w (config args)) = true)
  ∧ (∀ e, load_config json_load w (config args) = Err e →
          isinstance e Exception = true →
          snd (snd (main json_load w args)) = Exit (-1)).
Proof.
  intros Huse. unfold main, handlers. rewrite Huse.
  destruct (load_config json_load w (config args)) as [data|e].
  - repeat split; discriminate.
  - split; [reflexivity|]. split.
    + split; [|discriminate].
      destruct (isinstance e ConfigError); [discriminate|].
      by destruct (isinstance e Exception).
    + intros e' [= <-] Hexc.
      destruct (isinstance e ConfigError); [reflexivity|].
      by rewrite Hexc.
Qed.

(** X21. In create mode [main] always leaves through [sys.exit].  For
    a name without zero byte: with status 0 after the file was written
    and one line "Created ..." was printed, or with status -1 after
    [create_config] raised, with the world untouched and the message of
    the [ConfigError] as the one line printed.  For a name with a zero
    byte: with status -1, the world untouched and the line for an
    unknown error. *)
Theorem main_create_exits (w : World) (args : Namespace) :
  use args = false →
  (os.has_nul (config args) = false →
   (snd (snd (main json_load w args)) = Exit 0
    ∧ create_config w (config args) = (fst (main json_load w args), Ok tt)
    ∧ fst (snd (main json_load w args))
      = nprint (silent args) [] ["Created '" +:+ config args +:+ "'."])
   ∨ (snd (snd (main json_load w args)) = Exit (-1)
      ∧ fst (main json_load w args) = w
      ∧ ∃ msg,
          create_config w (config args) = (w, Err (Raise ConfigError msg))
          ∧ fst (snd (main json_load w args)) = nprint (silent args) [] [msg]))
  ∧ (os.has_nul (config args) = true →
     snd (snd (main json_load w args)) = Exit (-1)
     ∧ fst (main json_load w args) = w
     ∧ create_config w (config args) = (w, Err os.embedded_null)
     ∧ fst (snd (main json_load w args))
       = nprint (silent args) []
           ["Unknown error occurred while loading or creating configuration a file: embedded null byte"]).
Proof.
  intros Huse. split.
  - intros Hnul. unfold main. rewrite Huse.
    destruct (create_config w (config args)) as [w' [[]|e]] eqn:Hcreate.
    + left. done.
    + right.
      apply create_config_cases in Hcreate
        as [[-> [msg [= ->]]]
           |[[-> (e' & _ & Hopen & Hos & [= ->])]
            |(f & _ & _ & _ & _ & [=])]].
      * unfold handlers. cbn. eauto.
      * destruct (open_write_error _ _ _ Hopen) as [Hyes|[Hyes _]]; congruence.
  - intros Hnul.
    assert (Hcreate : create_config w (config args) = (w, Err os.embedded_null)).
    { unfold create_config; cbn [pathlib.Path].
      rewrite is_file_nul by (by rewrite has_nul_to_str_parse).
      unfold builtins.open_write. by rewrite Hnul. }
    unfold main. rewrite Huse, Hcreate. done.
Qed.

End MoreConfig.

(** ** The properties above at work *)





Lemma output_name_witness :
  ∃ a b c,
    archive.__init__ world0 "/data" ["pics"] "  photos " false = Ok a
    ∧ archive.__init__ world0 "/data" [] "   " false = Ok b
    ∧ archive.__init__ world0 "/data" ["pics"] "Archive" true = Ok c
    ∧ archive.get_name a true = "photos-20240309-070500.tgz"
    ∧ archive.get_name a false = "photos-20240309-070500.tar"
    ∧ archive.get_name b true = archive.get_name c true.
Proof.
  eexists _, _, _.
  split; [vm_compute; reflexivity|]. split; [vm_compute; reflexivity|].
  split; [vm_compute; reflexivity|].
  split; [|split].
  - apply (output_name world0 "/data" ["pics"] "  photos " false _ true).
    vm_compute. reflexivity.
  - apply (output_name world0 "/data" ["pics"] "  photos " false _ false).
    vm_compute. reflexivity.
  - apply (output_name world0 "/data" [] "   " false _ true
             ltac:(vm_compute; reflexivity))
      with (froot' := "/data") (fitems' := ["pics"]) (packed' := true);
      vm_compute; reflexivity.
Defined.

Lemma digest_gate_witness :
  let a := {| archive.__root := "/data"; archive.__items := ["pics"];
              archive.__base_name := "Archive"; archive.__packed := false;
              archive.__timestamp := "20240309-070500" |} in
  archive.get_md5 world0 a
  = Err (Raise ArchiveException
           "Archive needs to be packed before generating md5sum.")
  ∧ ∃ w' a' d,
      archive.pack reads_all names_only world0 a = (w', Ok a')
      ∧ archive.get_md5 w' a' = Ok d
      ∧ String.length d = 32
      ∧ all_chars is_lower_hex d = true.
Proof.
  intros a.
  destruct (digest_gate reads_all names_only world0 a) as [Hgate Hdigest].
  split; [apply Hgate; reflexivity|].
  set (r := archive.pack reads_all names_only world0 a).
  assert (E : r = (fst r, Ok (archive.set_packed a))) by (vm_compute; reflexivity).
  destruct (Hdigest _ _ E) as (d & Hd & Hlen & Hhex).
  exists (fst r), (archive.set_packed a), d. auto.
Defined.

(** C3, as the spec has it, fails: an object constructed with
    [packed=True] passes the gate of [get_md5] without any call of
    [pack]; where a file of the archive's name exists, it gets a digest. *)
Lemma digest_without_pack :
  ¬ (∀ w froot fitems base packed a,
       archive.__init__ w froot fitems base packed = Ok a →
       ∃ msg, archive.get_md5 w a = Err (Raise ArchiveException msg)).
Proof.
  intros Hall.
  destruct (Hall world1 "/data" [] "Archive" true _ ltac:(vm_compute; reflexivity))
    as [msg Hmsg].
  vm_compute in Hmsg. discriminate Hmsg.
Qed.

Lemma packed_is_monotonic_witness :
  let a := {| archive.__root := "/data"; archive.__items := ["pics"];
              archive.__base_name := "Archive"; archive.__packed := false;
              archive.__timestamp := "20240309-070500" |} in
  let one := archive.invoke reads_all names_only archive.Cpack world0 a in
  let calls := [archive.Cget_md5; archive.Cget_name false; archive.Cpack;
                archive.Cis_packed] in
  let all := archive.invoke_all reads_all names_only calls
               (fst (fst one)) (snd (fst one)) in
  snd (fst one) = archive.set_packed a
  ∧ archive.is_packed (snd all) = true.
Proof.
  intros a one calls all. split.
  - destruct (proj1 (packed_is_monotonic reads_all names_only archive.Cpack
                       world0 a)
                (fst (fst one)) (snd (fst one)) (snd one)) as [Hcase _].
    + vm_compute. reflexivity.
    + destruct Hcase as [Hsame|(_ & _ & Hset)]; [|exact Hset].
      vm_compute in Hsame. discriminate Hsame.
  - apply (proj2 (packed_is_monotonic reads_all names_only archive.Cget_md5
                    (fst (fst one)) (snd (fst one))) calls (fst all) (snd all));
      vm_compute; reflexivity.
Defined.

Lemma use_mode_discards_config_witness :
  let args := {| bak.use := true; bak.create := false;
                 bak.silent := false; bak.config := "bak.json" |} in
  bak.load_config empty_object_only world0 "bak.json" = Ok (json.JDict [])
  ∧ bak.main empty_object_only world0 args = (world0, ([], bak.Return)).
Proof.
  intros args.
  apply (use_mode_discards_config empty_object_only world0 args [x7b; x7d]);
    vm_compute; reflexivity.
Defined.

(** C9, as the spec has it, fails: no regular file exists at /data,
    which is a directory, and nothing is written there. *)
Lemma create_mode_directory :
  ¬ (∀ w fname,
       pathlib.is_file w (pathlib.parse fname) = Ok false →
       ∃ w', bak.create_config w fname = (w', Ok tt)).
Proof.
  intros Hall.
  destruct (Hall world0 "/data" ltac:(vm_compute; reflexivity)) as [w' Hw'].
  vm_compute in Hw'. discriminate Hw'.
Qed.

Lemma create_mode_witness :
  bak.create_config world0 "/work/notes.txt"
  = (world0, Err (Raise ConfigError
                    "Could not create '/work/notes.txt': File already exists."))
  ∧ bak.create_config world0 "./notes.txt/."
    = (world0, Err (Raise ConfigError
                      "Could not create './notes.txt/.': File already exists."))
  ∧ bak.create_config world0 "new.json"
    = (os.put world0 ["work"; "new.json"]
         (io.encode (json.dumps (bak.template world0) 4)), Ok tt)
  ∧ (bak.create_config world0 "../work/new.json"
     = (os.put world0 ["work"; "new.json"]
          (io.encode (json.dumps (bak.template world0) 4)), Ok tt)
     ∧ json.getitem (bak.template world0) "root" = Some (json.JStr "/home/u")
     ∧ json.getitem (bak.template world0) "files"
       = Some (json.JList [json.JStr "pictures";
                           json.JStr "videos/funny_vid.mp4"]))
  ∧ bak.create_config world0 "/data"
    = (world0, Err (Raise ConfigError
                      "Could not create '/data': [Errno 21] Is a directory: '/data'"))
  ∧ bak.create_config world0 nul_name
    = (world0, Err (Raise ValueError "embedded null byte"))
  ∧ bak.create_config world0 long_name
    = (world0, Err (Raise ConfigError
                      ("Could not create '" +:+ long_name
                         +:+ "': [Errno 36] File name too long: '"
                         +:+ long_name +:+ "'"))).
Proof.
  split; [|split; [|split; [|split; [|split; [|split]]]]].
  - destruct (create_mode world0 "/work/notes.txt") as (Hexists & _).
    apply (Hexists ["work"; "notes.txt"] [x68; x69]); vm_compute; reflexivity.
  - destruct (create_mode world0 "./notes.txt/.") as (_ & Hexists & _).
    apply Hexists. vm_compute. reflexivity.
  - destruct (create_mode world0 "new.json") as (_ & _ & Hnew & _).
    apply (Hnew ltac:(vm_compute; reflexivity)
             ["work"; "new.json"] (os.put world0 ["work"; "new.json"] [])).
    vm_compute. reflexivity.
  - destruct (create_mode world0 "../work/new.json")
      as (_ & _ & _ & Hwrites & _).
    apply (Hwrites ltac:(vm_compute; reflexivity)
             ["work"; "new.json"] (os.put world0 ["work"; "new.json"] [])).
    vm_compute. reflexivity.
  - destruct (create_mode world0 "/data") as (_ & _ & _ & _ & Hrefused & _).
    apply (Hrefused ltac:(vm_compute; reflexivity) (os.error os.EISDIR "/data")).
    vm_compute. reflexivity.
  - destruct (create_mode world0 nul_name) as (_ & _ & _ & _ & Hrefused & _).
    apply (Hrefused ltac:(vm_compute; reflexivity) os.embedded_null).
    vm_compute. reflexivity.
  - destruct (create_mode world0 long_name) as (_ & _ & _ & _ & _ & Hraises).
    apply (Hraises (os.error os.ENAMETOOLONG long_name)).
    vm_compute. reflexivity.
Defined.

Lemma config_error_is_wrapped_witness :
  bak.create_config world0 "notes.txt"
  = (world0, Err (Raise ConfigError
                    "Could not create 'notes.txt': File already exists."))
  ∧ bak.load_config empty_object_only world0 "missing.json"
    = Err (Raise ConfigError
             "Could not load 'missing.json': Configuration provided either does not exist or it is not a file.").
Proof.
  split.
  - apply (config_error_is_wrapped empty_object_only world0 "notes.txt").
    vm_compute. reflexivity.
  - apply (config_error_is_wrapped empty_object_only world0 "missing.json").
    vm_compute. reflexivity.
Defined.

Lemma stored_items_resolve_witness :
  "pics" ∈ archive.get_items archive0
  ↔ "pics" ∈ ["pics"; "missing.txt"] ∧ resolves world0 "/data" "pics" = Ok true.
Proof.
  apply (stored_items_resolve world0 "/data" ["pics"; "missing.txt"]
           "Archive" false archive0).
  vm_compute. reflexivity.
Defined.

Lemma stored_items_stable_witness :
  let b := {| archive.__root := "/data"; archive.__items := ["pics"];
              archive.__base_name := "second"; archive.__packed := true;
              archive.__timestamp := "20240309-070500" |} in
  sublist (archive.get_items archive0) ["pics"; "missing.txt"]
  ∧ archive.get_items b = archive.get_items archive0.
Proof.
  intros b.
  destruct (stored_items_stable world0 "/data" ["pics"; "missing.txt"]
              "Archive" false archive0) as (Hsub & Hagain & _).
  - vm_compute. reflexivity.
  - split; [exact Hsub|].
    apply (Hagain "second" true b). vm_compute. reflexivity.
Defined.

Lemma absolute_item_ignores_root_witness :
  archive.join_path world0 "/data" "/work/notes.txt"
  = match archive.is_valid_item world0 (pathlib.PStr "/work/notes.txt") with
    | Err e => Err e
    | Ok true => Ok (Some (pathlib.parse "/work/notes.txt"))
    | Ok false => Ok None
    end
  ∧ resolves world0 "/data" "/work/notes.txt"
    = archive.is_valid_item world0 (pathlib.PStr "/work/notes.txt").
Proof.
  apply (absolute_item_ignores_root world0 "/data" "/work/notes.txt").
  vm_compute. reflexivity.
Defined.

Lemma base_name_invariant_witness :
  ∃ a, archive.__init__ world0 "/data" ["pics"] "  my photos " false = Ok a
       ∧ archive.__base_name a = "my photos"
       ∧ archive._set_name (archive.__base_name a) = archive.__base_name a.
Proof.
  eexists. split; [vm_compute; reflexivity|]. split; [reflexivity|].
  apply (base_name_invariant world0 "/data" ["pics"] "  my photos " false).
  vm_compute. reflexivity.
Defined.


Lemma pack_failure_witness :
  let w' := fst (archive.pack (reads_but "/data/pics") names_only world0 archive0) in
  let e := Raise PermissionError "[Errno 13] Permission denied: '/data/pics'" in
  (w' = world0
   ∧ builtins.open_write world0 (archive.get_name archive0 true) = Err e)
  ∨ (∃ f w1 content,
       builtins.open_write world0 (archive.get_name archive0 true) = Ok (f, w1)
       ∧ os.stat w' (archive.get_name archive0 true) = inr (f, File content)
       ∧ ∃ item, item ∈ archive.get_items archive0
           ∧ (archive.join_path w1 (archive.get_root archive0) item = Err e
              ∨ (archive.join_path w1 (archive.get_root archive0) item = Ok None
                 ∧ e = Raise TypeError
                         "expected str, bytes or os.PathLike object, not NoneType")
              ∨ (∃ x, archive.join_path w1 (archive.get_root archive0) item
                      = Ok (Some x)
                      ∧ reads_but "/data/pics" w1 x item = Some e))).
Proof.
  intros w' e.
  apply (pack_failure (reads_but "/data/pics") names_only world0 archive0 w' e).
  vm_compute. reflexivity.
Defined.

Lemma pack_frame_witness :
  let w' := fst (archive.pack reads_all names_only world0 archive0) in
  cwd w' = cwd world0
  ∧ fs w' !! ["work"; "notes.txt"] = fs world0 !! ["work"; "notes.txt"].
Proof.
  intros w'.
  destruct (pack_frame reads_all names_only world0 archive0 w'
              (Ok (archive.set_packed archive0))) as (Hcwd & _ & _ & Hfs).
  - vm_compute. reflexivity.
  - split; [exact Hcwd|]. apply Hfs. vm_compute. discriminate.
Defined.

Lemma pack_twice_witness :
  let w' := fst (archive.pack reads_all names_only world0 archive0) in
  ∃ f content,
    os.creat world0 (archive.get_name archive0 true) = inr f
    ∧ os.creat w' (archive.get_name (archive.set_packed archive0) true) = inr f
    ∧ archive.pack reads_all names_only w' (archive.set_packed archive0)
      = (os.put w' f content, Ok (archive.set_packed archive0)).
Proof.
  intros w'.
  apply (pack_twice reads_all names_only world0 archive0 w'
           (archive.set_packed archive0)).
  vm_compute. reflexivity.
Defined.

Lemma get_md5_outcomes_witness :
  archive.get_md5 world1 (archive.set_packed archive0)
  = Ok (md5_reference [x61; x62; x63])
  ∧ archive.get_md5 world0 (archive.set_packed archive0)
    = Err (os.error os.ENOENT "Archive-20240309-070500.tgz").
Proof.
  split.
  - apply (proj1 (get_md5_outcomes world1 (archive.set_packed archive0))).
    split; [reflexivity|]. exists [x61; x62; x63].
    split; [vm_compute|]; reflexivity.
  - apply (proj2 (get_md5_outcomes world0 (archive.set_packed archive0))).
    + reflexivity.
    + vm_compute. reflexivity.
Defined.

Lemma digest_of_packed_witness :
  let w' := fst (archive.pack reads_all names_only world0 archive0) in
  ∃ f content,
    os.creat world0 (archive.get_name archive0 true) = inr f
    ∧ fs w' !! f = Some (File content)
    ∧ archive.get_md5 w' (archive.set_packed archive0)
      = Ok (md5_reference content).
Proof.
  intros w'.
  apply (digest_of_packed reads_all names_only world0 archive0 w'
           (archive.set_packed archive0)).
  vm_compute. reflexivity.
Defined.

Lemma construct_then_pack_witness :
  let a := {| archive.__root := "/data";
              archive.__items := ["pics"; "/data/pics/a.png"];
              archive.__base_name := "Archive"; archive.__packed := false;
              archive.__timestamp := "20240309-070500" |} in
  let w1 := os.put world0 tgz0 [] in
  archive.pack reads_all names_only world0 a
  = (os.put w1 tgz0
       (names_only w1
          [(pathlib.parse "/data/pics", "pics");
           (pathlib.parse "/data/pics/a.png", "data/pics/a.png")] true),
     Ok (archive.set_packed a)).
Proof.
  intros a w1.
  rewrite (construct_then_pack reads_all names_only world0 "/data"
             ["pics"; "/data/pics/a.png"] "Archive" false a tgz0 w1).
  - vm_compute. reflexivity.
  - vm_compute. reflexivity.
  - repeat constructor; eexists; vm_compute; reflexivity.
  - vm_compute. reflexivity.
  - reflexivity.
Defined.

Lemma attributes_are_fixed_witness :
  let calls := [archive.Cpack; archive.Cget_md5; archive.Cget_name false] in
  let after := archive.invoke_all reads_all names_only calls world0 archive0 in
  archive.get_root (snd after) = archive.get_root archive0
  ∧ archive.get_items (snd after) = archive.get_items archive0
  ∧ archive.get_name (snd after) true = archive.get_name archive0 true.
Proof.
  intros calls after.
  destruct (attributes_are_fixed reads_all names_only calls world0 archive0
              (fst after) (snd after)) as (Hroot & Hitems & Hname).
  - vm_compute. reflexivity.
  - split; [exact Hroot|]. split; [exact Hitems | exact (Hname true)].
Defined.


Lemma load_config_iff_open_witness :
  bak.load_config empty_object_only world0 "bak.json" = Ok (json.JDict []).
Proof.
  apply (proj2 (load_config_iff_open empty_object_only world0 "bak.json"
                  (json.JDict []))).
  exists [x7b; x7d]. split; vm_compute; reflexivity.
Defined.

Lemma load_config_errors_witness :
  let e := Raise JSONDecodeError "Expecting value: line 1 column 1 (char 0)" in
  (∃ msg, e = Raise ConfigError
                ("Could not load '" +:+ "notes.txt" +:+ "': " +:+ msg))
  ∨ (isinstance e OSError = false
     ∧ ∃ content,
         builtins.open_read world0 "notes.txt" = Ok content
         ∧ empty_object_only content = Err e).
Proof.
  intros e.
  apply (load_config_errors empty_object_only world0 "notes.txt" e).
  vm_compute. reflexivity.
Defined.

Lemma create_config_errors_witness :
  let e := Raise ConfigError
             "Could not create '/data': [Errno 21] Is a directory: '/data'" in
  (world0 = world0
   ∧ ((∃ msg, e = Raise ConfigError
                    ("Could not create '" +:+ "/data" +:+ "': " +:+ msg))
      ∨ (builtins.open_write world0 "/data" = Err e
         ∧ isinstance e OSError = false
         ∧ os.has_nul "/data" = true
         ∧ e = os.embedded_null)))
  ∧ (world0 = world0
     ∧ ((∃ msg, os.embedded_null
                = Raise ConfigError
                    ("Could not create '" +:+ nul_name +:+ "': " +:+ msg))
        ∨ (builtins.open_write world0 nul_name = Err os.embedded_null
           ∧ isinstance os.embedded_null OSError = false
           ∧ os.has_nul nul_name = true
           ∧ os.embedded_null = os.embedded_null))).
Proof.
  intros e. split.
  - apply (create_config_errors world0 "/data" world0 e).
    vm_compute. reflexivity.
  - apply (create_config_errors world0 nul_name world0 os.embedded_null).
    vm_compute. reflexivity.
Defined.

Lemma create_then_load_witness :
  let w' := os.put world0 ["work"; "new.json"]
              (io.encode (json.dumps (bak.template world0) 4)) in
  bak.load_config (template_only world0) w' "new.json" = Ok (bak.template world0)
  ∧ bak.create_config w' "new.json"
    = (w', Err (Raise ConfigError
                  "Could not create 'new.json': File already exists.")).
Proof.
  intros w'.
  destruct (create_then_load (template_only world0) world0 "new.json" w')
    as [Hload Hagain].
  - vm_compute. reflexivity.
  - split; [|exact Hagain]. apply Hload. vm_compute. reflexivity.
Defined.

Lemma create_config_frame_witness :
  let w' := fst (bak.create_config world0 "new.json") in
  home w' = home world0
  ∧ fs w' !! ["work"; "notes.txt"] = fs world0 !! ["work"; "notes.txt"].
Proof.
  intros w'.
  destruct (create_config_frame world0 "new.json" w' (Ok tt))
    as (_ & Hhome & _ & Hfs).
  - vm_compute. reflexivity.
  - split; [exact Hhome|]. apply Hfs. vm_compute. discriminate.
Defined.

Lemma main_silent_witness :
  fst (snd (bak.main empty_object_only world0
              {| bak.use := false; bak.create := true; bak.silent := true;
                 bak.config := "notes.txt" |})) = [].
Proof.
  apply (main_silent empty_object_only world0). reflexivity.
Defined.

Lemma main_use_witness :
  let args := {| bak.use := true; bak.create := false; bak.silent := false;
                 bak.config := "notes.txt" |} in
  fst (bak.main empty_object_only world0 args) = world0
  ∧ snd (snd (bak.main empty_object_only world0 args)) = bak.Exit (-1).
Proof.
  intros args.
  destruct (main_use empty_object_only world0 args) as (Hworld & _ & Hexit).
  - reflexivity.
  - split; [exact Hworld|].
    apply (Hexit (Raise JSONDecodeError
                    "Expecting value: line 1 column 1 (char 0)"));
      vm_compute; reflexivity.
Defined.

Lemma main_create_exits_witness :
  let args := {| bak.use := false; bak.create := true; bak.silent := false;
                 bak.config := "new.json" |} in
  let run := bak.main empty_object_only world0 args in
  let args' := {| bak.use := false; bak.create := true; bak.silent := false;
                  bak.config := nul_name |} in
  let run' := bak.main empty_object_only world0 args' in
  ((snd (snd run) = bak.Exit 0
    ∧ bak.create_config world0 "new.json" = (fst run, Ok tt)
    ∧ fst (snd run) = bak.nprint false [] ["Created '" +:+ "new.json" +:+ "'."])
   ∨ (snd (snd run) = bak.Exit (-1)
      ∧ fst run = world0
      ∧ ∃ msg,
          bak.create_config world0 "new.json"
          = (world0, Err (Raise ConfigError msg))
          ∧ fst (snd run) = bak.nprint false [] [msg]))
  ∧ (snd (snd run') = bak.Exit (-1)
     ∧ fst run' = world0
     ∧ bak.create_config world0 nul_name = (world0, Err os.embedded_null)
     ∧ fst (snd run')
       = bak.nprint false []
           ["Unknown error occurred while loading or creating configuration a file: embedded null byte"]).
Proof.
  intros args run args' run'. split.
  - apply (proj1 (main_create_exits empty_object_only world0 args eq_refl)).
    vm_compute. reflexivity.
  - apply (proj2 (main_create_exits empty_object_only world0 args' eq_refl)).
    vm_compute. reflexivity.
Defined.

(** ** The model at work *)

(** Items are kept in order, as given and as often as given; the one
    that names nothing is dropped. *)
Example resolve_in_order :
  archive._set_items world0 "/data" []
    ["pics"; "missing.txt"; "pics/a.png"; "/work/notes.txt"; "pics"]
  = Ok ["pics"; "pics/a.png"; "/work/notes.txt"; "pics"].
Proof. vm_compute. reflexivity. Qed.

(** An item that exists in the working directory is kept although the
    root has no such item. *)
Example resolve_outside_root :
  archive._set_items world0 "/data" [] ["notes.txt"] = Ok ["notes.txt"]
  ∧ archive.join_path world0 "/data" "notes.txt" = Ok None.
Proof. vm_compute. split; reflexivity. Qed.

(** A name with a zero byte names nothing and is dropped; a name too
    long makes the test raise; a name of 255 bytes does not. *)
Example resolve_odd_names :
  archive._set_items world0 "/data" [] ["pics"; nul_name] = Ok ["pics"]
  ∧ archive.is_valid_item world0 (pathlib.PStr long_name)
    = Err (os.error os.ENAMETOOLONG long_name)
  ∧ archive.is_valid_item world0
      (pathlib.PStr (string_of_list_ascii (repeat "a"%char 255)))
    = Ok false.
Proof. vm_compute. repeat split; reflexivity. Qed.

(** Packing a directory of the root writes the archive under its name in
    the working directory. *)
Example pack_writes_archive :
  let a := {| archive.__root := "/data"; archive.__items := ["pics"];
              archive.__base_name := "Archive"; archive.__packed := false;
              archive.__timestamp := "20240309-070500" |} in
  archive.__init__ world0 "/data" ["pics"; "missing.txt"] "Archive" false = Ok a
  ∧ archive.pack reads_all names_only world0 a
    = (os.put world0 ["work"; "Archive-20240309-070500.tgz"]
         [x70; x69; x63; x73],
       Ok (archive.set_packed a)).
Proof. vm_compute. split; reflexivity. Qed.

(** The archive of an earlier run is among the items and has the name
    of the new one: it is left out; the other item is recorded without
    its leading slash. *)
Example pack_skips_itself :
  archive.__init__ world1 "/work"
    ["Archive-20240309-070500.tgz"; "/work/notes.txt"] "Archive" false
  = Ok archive_self
  ∧ expected_members (os.put world1 tgz0 [])
      "/work/Archive-20240309-070500.tgz" "/work"
      ["Archive-20240309-070500.tgz"; "/work/notes.txt"]
    = [(pathlib.parse "/work/notes.txt", "work/notes.txt")]
  ∧ snd (archive.pack reads_all names_only world1 archive_self)
    = Ok (archive.set_packed archive_self).
Proof. vm_compute. repeat split; reflexivity. Qed.

(** A member that cannot be read stops [pack] after the archive file
    was created. *)
Example pack_unreadable_member :
  archive.pack (reads_but "/data/pics") names_only world0 archive0
  = (os.put world0 tgz0 [],
     Err (Raise PermissionError "[Errno 13] Permission denied: '/data/pics'")).
Proof. vm_compute. reflexivity. Qed.

(** The text [create_config] writes for the home directory /home/u. *)
Example template_text :
  io.encode (json.dumps (bak.template world0) 4)
  = [
    x7b; x0a; x20; x20; x20; x20; x22; x72; x6f; x6f; x74; x22; x3a; x20;
    x22; x2f; x68; x6f; x6d; x65; x2f; x75; x22; x2c; x0a; x20; x20; x20;
    x20; x22; x66; x69; x6c; x65; x73; x22; x3a; x20; x5b; x0a; x20; x20;
    x20; x20; x20; x20; x20; x20; x22; x70; x69; x63; x74; x75; x72; x65;
    x73; x22; x2c; x0a; x20; x20; x20; x20; x20; x20; x20; x20; x22; x76;
    x69; x64; x65; x6f; x73; x2f; x66; x75; x6e; x6e; x79; x5f; x76; x69;
    x64; x2e; x6d; x70; x34; x22; x0a; x20; x20; x20; x20; x5d; x0a; x7d
    ].
Proof. vm_compute. reflexivity. Qed.

Example main_create :
  bak.main empty_object_only world0
    {| bak.use := false; bak.create := true; bak.silent := false;
       bak.config := "new.json" |}
  = (os.put world0 ["work"; "new.json"]
       (io.encode (json.dumps (bak.template world0) 4)),
     (["Created 'new.json'." +:+ bak.newline], bak.Exit 0)).
Proof. vm_compute. reflexivity. Qed.

Example main_create_existing :
  bak.main empty_object_only world0
    {| bak.use := false; bak.create := true; bak.silent := false;
       bak.config := "notes.txt" |}
  = (world0,
     (["Could not create 'notes.txt': File already exists." +:+ bak.newline],
      bak.Exit (-1))).
Proof. vm_compute. reflexivity. Qed.

Example main_create_directory :
  bak.main empty_object_only world0
    {| bak.use := false; bak.create := true; bak.silent := true;
       bak.config := "/data" |}
  = (world0, ([], bak.Exit (-1))).
Proof. vm_compute. reflexivity. Qed.

Example main_use_not_json :
  bak.main empty_object_only world0
    {| bak.use := true; bak.create := false; bak.silent := false;
       bak.config := "notes.txt" |}
  = (world0,
     (["Unknown error occurred while loading or creating configuration a file: Expecting value: line 1 column 1 (char 0)"
         +:+ bak.newline],
      bak.Exit (-1))).
Proof. vm_compute. reflexivity. Qed.

Example main_use_long_name :
  bak.main empty_object_only world0
    {| bak.use := true; bak.create := false; bak.silent := false;
       bak.config := long_name |}
  = (world0,
     (["Could not load '" +:+ long_name
         +:+ "': [Errno 36] File name too long: '" +:+ long_name +:+ "'"
         +:+ bak.newline],
      bak.Exit (-1))).
Proof. vm_compute. reflexivity. Qed.
